(** * MaskedAttendance: a shallow embedding of the attendance ledger

    The contract [MaskedAttendance] (Solidity, FHEVM) keeps a role
    registry, a course registry and three families of encrypted cells.
    Every external function is embedded as a function on an explicit
    contract state; a failing [require] is a [Revert] carrying the
    message of the source, and a reverted call leaves no state behind. *)

From Stdlib Require Import NArith Lia.
From stdpp Require Import gmap strings list pretty.

Local Open Scope N_scope.
Local Open Scope string_scope.

(** ** Machine types *)

(** [address] and [uint256] are unsigned integers; checked arithmetic
    (Solidity 0.8) panics instead of wrapping. *)
Abbreviation address := N (only parsing).
Abbreviation uint256 := N (only parsing).

Definition uint256_max : N := 2 ^ 256 - 1.

(** ** Outcome of a call *)

Inductive revert_reason :=
| Error (msg : string)          (* require(cond, msg) failed *)
| Panic (code : N)              (* checked arithmetic, code 0x11 *)
| InvalidInputProof             (* the runtime rejected the submitted ciphertext *)
| NoSuchFunction.               (* selector matches no function, no fallback *)

Inductive result (A : Type) :=
| Ok (a : A)
| Revert (why : revert_reason).
Arguments Ok {A} a.
Arguments Revert {A} why.

Definition is_ok {A} (r : result A) : bool :=
  match r with Ok _ => true | Revert _ => false end.

(** ** The encryption runtime *)

(** A ciphertext held by the ledger: the value it encrypts together with
    the principals authorised to decrypt it. *)
Record ciphertext := Ciphertext {
  ct_plain : N;
  ct_acl : gset N
}.

(** An encrypted handle is either uninitialised (the zero handle) or
    refers to a ciphertext. *)
Abbreviation euint8 := (option ciphertext) (only parsing).
Abbreviation euint32 := (option ciphertext) (only parsing).
Abbreviation ebool := (option ciphertext) (only parsing).

(** The client-side ciphertext of an 8-bit value, and the proof shipped
    with it; [proof_ok] is the verdict of the runtime's input verifier. *)
Record externalEuint8 := ExternalEuint8 { ext_plain : N }.
Record input_proof := InputProof { proof_ok : bool }.

(** Modelled from the spec: the FHE library ([@fhevm/solidity], imported
    by the contract) is an external collaborator and not part of the
    repository.  Each operation is given its plaintext meaning on w-bit
    unsigned integers, whose arithmetic wraps modulo 2^w; an
    uninitialised operand counts as zero; [allow] records a decryption
    capability on the handle and changes no value; [fromExternal] imports
    a submitted ciphertext when the runtime accepts its proof and reverts
    otherwise.

    The grants listed in a ciphertext are those made on it since the
    operation that produced it.  The runtime keeps its grants per handle,
    and two values may share a handle (the trivial encryption of one
    constant, an input submitted twice), so the grants the runtime holds
    for a stored handle include the listed ones and may exceed them
    unless the handle is fresh. *)
Module FHE.

Definition plain (e : option ciphertext) : N :=
  match e with Some c => ct_plain c | None => 0 end.

Definition asEuint8 (v : N) : euint8 := Some (Ciphertext (v mod 2 ^ 8) ∅).

Definition asEuint32 (v : N) : euint32 := Some (Ciphertext (v mod 2 ^ 32) ∅).

(** [FHE.asEuint32] applied to an euint8: the widening cast. *)
Definition castEuint32 (e : euint8) : euint32 :=
  Some (Ciphertext (plain e mod 2 ^ 32) ∅).

Definition eq (a b : euint8) : ebool :=
  Some (Ciphertext (if bool_decide (plain a = plain b) then 1 else 0) ∅).

Definition gt (a b : euint32) : ebool :=
  Some (Ciphertext (if bool_decide (plain b < plain a) then 1 else 0) ∅).

Definition select (c : ebool) (a b : euint32) : euint32 :=
  Some (Ciphertext (if bool_decide (plain c = 0) then plain b else plain a) ∅).

Definition add (a b : euint32) : euint32 :=
  Some (Ciphertext ((plain a + plain b) mod 2 ^ 32) ∅).

(** [seed] is what the runtime's randomness source hands out. *)
Definition randEuint8 (seed : N) : euint8 :=
  Some (Ciphertext (seed mod 2 ^ 8) ∅).

Definition fromExternal (x : externalEuint8) (p : input_proof) : result euint8 :=
  if proof_ok p then Ok (Some (Ciphertext (ext_plain x mod 2 ^ 8) ∅))
  else Revert InvalidInputProof.

Definition allow (e : option ciphertext) (who : address) : option ciphertext :=
  match e with
  | Some c => Some (Ciphertext (ct_plain c) ({[who]} ∪ ct_acl c))
  | None => None
  end.

End FHE.

(** ** Contract storage *)

Record Course := mkCourse {
  courseId : uint256;
  name : string;
  teacher : address;
  startTime : uint256;
  endTime : uint256;
  isActive : bool;
  isFinalized : bool
}.

(** The value a Solidity mapping yields for a key never written. *)
Definition zeroCourse : Course := mkCourse 0 "" 0 0 0 false false.

Inductive Event :=
| CourseCreated (id : uint256) (nm : string) (by_teacher : address)
| StudentCheckedIn (id : uint256) (student : address)
| CourseFinalized (id : uint256)
| CourseStatusChanged (id : uint256) (active : bool).

Record State := mkState {
  nextCourseId : uint256;
  admin : address;
  courses : gmap N Course;
  isTeacher : gset N;
  isStudent : gset N;
  encryptedAttendance : gmap (N * N) ciphertext;
  encryptedTotalAttendance : gmap N ciphertext;
  encryptedStudentScore : gmap N ciphertext;
  events : list Event
}.

(** What a transaction sees of its environment: [msg.sender],
    [block.timestamp], [address(this)] and the value the runtime's
    randomness source would hand out. *)
Record Env := mkEnv {
  msg_sender : address;
  block_timestamp : uint256;
  this : address;
  fhe_random : N
}.

(** Reading [courses[id]]: absent keys read as the zero struct. *)
Definition course_at (s : State) (id : uint256) : Course :=
  default zeroCourse (courses s !! id).

(** Writing an encrypted handle into a mapping slot; the zero handle
    clears the slot. *)
Definition sstore `{Countable K} (k : K) (e : option ciphertext)
    (m : gmap K ciphertext) : gmap K ciphertext :=
  match e with Some c => <[k := c]> m | None => delete k m end.

Definition set_nextCourseId (v : uint256) (s : State) : State :=
  mkState v (admin s) (courses s) (isTeacher s) (isStudent s)
    (encryptedAttendance s) (encryptedTotalAttendance s)
    (encryptedStudentScore s) (events s).

Definition set_courses (v : gmap N Course) (s : State) : State :=
  mkState (nextCourseId s) (admin s) v (isTeacher s) (isStudent s)
    (encryptedAttendance s) (encryptedTotalAttendance s)
    (encryptedStudentScore s) (events s).

Definition set_isTeacher (v : gset N) (s : State) : State :=
  mkState (nextCourseId s) (admin s) (courses s) v (isStudent s)
    (encryptedAttendance s) (encryptedTotalAttendance s)
    (encryptedStudentScore s) (events s).

Definition set_isStudent (v : gset N) (s : State) : State :=
  mkState (nextCourseId s) (admin s) (courses s) (isTeacher s) v
    (encryptedAttendance s) (encryptedTotalAttendance s)
    (encryptedStudentScore s) (events s).

Definition set_encryptedAttendance (v : gmap (N * N) ciphertext) (s : State) : State :=
  mkState (nextCourseId s) (admin s) (courses s) (isTeacher s) (isStudent s)
    v (encryptedTotalAttendance s) (encryptedStudentScore s) (events s).

Definition set_encryptedTotalAttendance (v : gmap N ciphertext) (s : State) : State :=
  mkState (nextCourseId s) (admin s) (courses s) (isTeacher s) (isStudent s)
    (encryptedAttendance s) v (encryptedStudentScore s) (events s).

Definition set_encryptedStudentScore (v : gmap N ciphertext) (s : State) : State :=
  mkState (nextCourseId s) (admin s) (courses s) (isTeacher s) (isStudent s)
    (encryptedAttendance s) (encryptedTotalAttendance s) v (events s).

Definition emit (e : Event) (s : State) : State :=
  mkState (nextCourseId s) (admin s) (courses s) (isTeacher s) (isStudent s)
    (encryptedAttendance s) (encryptedTotalAttendance s)
    (encryptedStudentScore s) (events s ++ [e]).

(** ** A small state-and-revert monad *)

Definition M (A : Type) : Type := State -> result (A * State).

Definition ret {A} (a : A) : M A := fun s => Ok (a, s).

Definition bind {A B} (m : M A) (k : A -> M B) : M B :=
  fun s => match m s with
           | Ok (a, s') => k a s'
           | Revert why => Revert why
           end.

Notation "'let*' x ':=' m 'in' k" := (bind m (fun x => k))
  (at level 10, x name, m at level 100, k at level 200).
Notation "m ';;;' k" := (bind m (fun _ => k))
  (at level 100, k at level 200, right associativity).

Definition get : M State := fun s => Ok (s, s).
Definition modify (f : State -> State) : M unit := fun s => Ok (tt, f s).
Definition revert {A} (why : revert_reason) : M A := fun _ => Revert why.

Definition require (cond : bool) (msg : string) : M unit :=
  if cond then ret tt else revert (Error msg).

Definition lift {A} (r : result A) : M A :=
  match r with Ok a => ret a | Revert why => revert why end.

(** [a - b] and [a + 1] on uint256, as compiled by Solidity 0.8. *)
Definition checked_sub (a b : uint256) : M uint256 :=
  if bool_decide (b <= a) then ret (a - b) else revert (Panic 17).

Definition checked_succ (a : uint256) : M uint256 :=
  if bool_decide (a < uint256_max) then ret (a + 1) else revert (Panic 17).

(** ** Modifiers *)

Definition onlyAdmin (env : Env) : M unit :=
  let* s := get in
  require (bool_decide (msg_sender env = admin s)) "Only admin".

Definition onlyTeacher (env : Env) : M unit :=
  let* s := get in
  require (bool_decide (msg_sender env ∈ isTeacher s)) "Only teacher".

Definition onlyStudent (env : Env) : M unit :=
  let* s := get in
  require (bool_decide (msg_sender env ∈ isStudent s)) "Only student".

Definition courseExists (id : uint256) : M unit :=
  let* s := get in
  require (bool_decide (0 < id) && bool_decide (id < nextCourseId s))
    "Course does not exist" ;;;
  require (bool_decide (courseId (course_at s id) = id)) "Course not initialized".

(** ** Constructor and role management *)

Definition constructor (deployer : address) : State :=
  mkState 1 deployer ∅ ∅ ∅ ∅ ∅ ∅ [].

Definition registerTeacher (env : Env) (who : address) : M unit :=
  onlyAdmin env ;;;
  modify (fun s => set_isTeacher ({[who]} ∪ isTeacher s) s).

Definition registerStudent (env : Env) (who : address) : M unit :=
  onlyAdmin env ;;;
  modify (fun s => set_isStudent ({[who]} ∪ isStudent s) s).

Definition selfRegister (env : Env) : M unit :=
  let* s := get in
  require (negb (bool_decide (msg_sender env ∈ isTeacher s)))
    "Teachers cannot self-register as students" ;;;
  require (negb (bool_decide (msg_sender env ∈ isStudent s)))
    "Already registered as student" ;;;
  modify (fun s => set_isStudent ({[msg_sender env]} ∪ isStudent s) s) ;;;
  modify (fun s => set_encryptedStudentScore
    (sstore (msg_sender env) (FHE.asEuint32 0) (encryptedStudentScore s)) s) ;;;
  modify (fun s => set_encryptedStudentScore
    (sstore (msg_sender env)
       (FHE.allow (encryptedStudentScore s !! msg_sender env) (this env))
       (encryptedStudentScore s)) s) ;;;
  modify (fun s => set_encryptedStudentScore
    (sstore (msg_sender env)
       (FHE.allow (encryptedStudentScore s !! msg_sender env) (msg_sender env))
       (encryptedStudentScore s)) s).

(** ** Course lifecycle *)

Definition createCourse (env : Env) (nm : string) (start stop : uint256)
    : M uint256 :=
  onlyTeacher env ;;;
  let* bound := checked_sub (block_timestamp env) 300 in
  require (bool_decide (bound < start))
    "Start time must not be too far in the past" ;;;
  require (bool_decide (start < stop)) "End time must be after start" ;;;
  let* s := get in
  let id := nextCourseId s in
  let* next := checked_succ id in
  modify (set_nextCourseId next) ;;;
  modify (fun s => set_courses
    (<[id := mkCourse id nm (msg_sender env) start stop true false]> (courses s)) s) ;;;
  modify (fun s => set_encryptedTotalAttendance
    (sstore id (FHE.asEuint32 0) (encryptedTotalAttendance s)) s) ;;;
  modify (fun s => set_encryptedTotalAttendance
    (sstore id (FHE.allow (encryptedTotalAttendance s !! id) (this env))
       (encryptedTotalAttendance s)) s) ;;;
  modify (fun s => set_encryptedTotalAttendance
    (sstore id (FHE.allow (encryptedTotalAttendance s !! id) (msg_sender env))
       (encryptedTotalAttendance s)) s) ;;;
  modify (emit (CourseCreated id nm (msg_sender env))) ;;;
  ret id.

Definition with_finalized (c : Course) : Course :=
  mkCourse (courseId c) (name c) (teacher c) (startTime c) (endTime c)
    (isActive c) true.

Definition with_active (b : bool) (c : Course) : Course :=
  mkCourse (courseId c) (name c) (teacher c) (startTime c) (endTime c)
    b (isFinalized c).

Definition finalizeCourse (env : Env) (id : uint256) : M unit :=
  onlyTeacher env ;;;
  let* s := get in
  require (negb (bool_decide (courseId (course_at s id) = 0)))
    "Course does not exist" ;;;
  require (bool_decide (teacher (course_at s id) = msg_sender env))
    "Only course teacher can finalize" ;;;
  require (negb (isFinalized (course_at s id))) "Course already finalized" ;;;
  modify (fun s => set_courses (<[id := with_finalized (course_at s id)]> (courses s)) s) ;;;
  modify (fun s => set_courses (<[id := with_active false (course_at s id)]> (courses s)) s) ;;;
  modify (emit (CourseFinalized id)).

Definition toggleCourseStatus (env : Env) (id : uint256) : M unit :=
  onlyTeacher env ;;;
  let* s := get in
  require (negb (bool_decide (courseId (course_at s id) = 0)))
    "Course does not exist" ;;;
  require (bool_decide (teacher (course_at s id) = msg_sender env))
    "Only course teacher can modify" ;;;
  require (negb (isFinalized (course_at s id))) "Cannot modify finalized course" ;;;
  modify (fun s => set_courses
    (<[id := with_active (negb (isActive (course_at s id))) (course_at s id)]> (courses s)) s) ;;;
  let* s := get in
  modify (emit (CourseStatusChanged id (isActive (course_at s id)))).

(** ** Encrypted check-in *)

Definition checkIn (env : Env) (id : uint256)
    (encryptedStatus : externalEuint8) (proof : input_proof) : M unit :=
  onlyStudent env ;;;
  courseExists id ;;;
  let* s := get in
  require (bool_decide (startTime (course_at s id) <= block_timestamp env))
    "Course not started" ;;;
  require (bool_decide (block_timestamp env <= endTime (course_at s id)))
    "Course already ended" ;;;
  require (negb (isFinalized (course_at s id))) "Course finalized" ;;;
  let* status := lift (FHE.fromExternal encryptedStatus proof) in
  let status := FHE.allow status (this env) in
  let status := FHE.allow status (msg_sender env) in
  let cell := (id, msg_sender env) in
  modify (fun s => set_encryptedAttendance
    (sstore cell status (encryptedAttendance s)) s) ;;;
  modify (fun s => set_encryptedAttendance
    (sstore cell (FHE.allow (encryptedAttendance s !! cell) (this env))
       (encryptedAttendance s)) s) ;;;
  modify (fun s => set_encryptedAttendance
    (sstore cell (FHE.allow (encryptedAttendance s !! cell) (msg_sender env))
       (encryptedAttendance s)) s) ;;;
  modify (fun s => set_encryptedAttendance
    (sstore cell (FHE.allow (encryptedAttendance s !! cell) (teacher (course_at s id)))
       (encryptedAttendance s)) s) ;;;
  let isAttending := FHE.eq status (FHE.asEuint8 1) in
  modify (fun s => set_encryptedTotalAttendance
    (sstore id
       (FHE.add (encryptedTotalAttendance s !! id)
          (FHE.select isAttending (FHE.asEuint32 1) (FHE.asEuint32 0)))
       (encryptedTotalAttendance s)) s) ;;;
  let scoreToAdd := FHE.select isAttending (FHE.asEuint32 10) (FHE.asEuint32 0) in
  modify (fun s => set_encryptedStudentScore
    (sstore (msg_sender env)
       (FHE.add (encryptedStudentScore s !! msg_sender env) scoreToAdd)
       (encryptedStudentScore s)) s) ;;;
  modify (fun s => set_encryptedTotalAttendance
    (sstore id (FHE.allow (encryptedTotalAttendance s !! id) (this env))
       (encryptedTotalAttendance s)) s) ;;;
  modify (fun s => set_encryptedTotalAttendance
    (sstore id (FHE.allow (encryptedTotalAttendance s !! id) (msg_sender env))
       (encryptedTotalAttendance s)) s) ;;;
  modify (fun s => set_encryptedTotalAttendance
    (sstore id (FHE.allow (encryptedTotalAttendance s !! id) (teacher (course_at s id)))
       (encryptedTotalAttendance s)) s) ;;;
  modify (fun s => set_encryptedStudentScore
    (sstore (msg_sender env)
       (FHE.allow (encryptedStudentScore s !! msg_sender env) (this env))
       (encryptedStudentScore s)) s) ;;;
  modify (fun s => set_encryptedStudentScore
    (sstore (msg_sender env)
       (FHE.allow (encryptedStudentScore s !! msg_sender env) (msg_sender env))
       (encryptedStudentScore s)) s) ;;;
  modify (emit (StudentCheckedIn id (msg_sender env))).

(** ** Teacher-driven bonus and comparison *)

Definition generateRandomBonus (env : Env) (student : address) : M unit :=
  onlyTeacher env ;;;
  let randomBonus := FHE.randEuint8 (fhe_random env) in
  modify (fun s => set_encryptedStudentScore
    (sstore student
       (FHE.add (encryptedStudentScore s !! student) (FHE.castEuint32 randomBonus))
       (encryptedStudentScore s)) s) ;;;
  modify (fun s => set_encryptedStudentScore
    (sstore student (FHE.allow (encryptedStudentScore s !! student) (this env))
       (encryptedStudentScore s)) s) ;;;
  modify (fun s => set_encryptedStudentScore
    (sstore student (FHE.allow (encryptedStudentScore s !! student) student)
       (encryptedStudentScore s)) s).

Definition compareStudentScores (env : Env) (student1 student2 : address)
    : M ebool :=
  let* s := get in
  require (bool_decide (msg_sender env = admin s)) "Only admin can compare" ;;;
  let result := FHE.gt (encryptedStudentScore s !! student1)
                       (encryptedStudentScore s !! student2) in
  let result := FHE.allow result (this env) in
  let result := FHE.allow result (admin s) in
  ret result.

(** ** Read surface *)

Definition getStudentAttendance (env : Env) (id : uint256) (student : address)
    : M euint8 :=
  courseExists id ;;;
  let* s := get in
  require (bool_decide (msg_sender env = student)
           || bool_decide (msg_sender env = teacher (course_at s id))
           || bool_decide (msg_sender env = admin s))
    "Not authorized" ;;;
  ret (encryptedAttendance s !! (id, student)).

Definition getCourseAttendance (env : Env) (id : uint256) : M euint32 :=
  courseExists id ;;;
  let* s := get in
  require (bool_decide (msg_sender env = teacher (course_at s id))
           || bool_decide (msg_sender env = admin s))
    "Not authorized" ;;;
  ret (encryptedTotalAttendance s !! id).

Definition getStudentScore (env : Env) (student : address) : M euint32 :=
  let* s := get in
  require (bool_decide (msg_sender env = student)
           || bool_decide (msg_sender env = admin s))
    "Not authorized" ;;;
  ret (encryptedStudentScore s !! student).

Definition getCourseInfo (id : uint256)
    : M (string * address * uint256 * uint256 * bool) :=
  courseExists id ;;;
  let* s := get in
  let course := course_at s id in
  ret (name course, teacher course, startTime course, endTime course,
       isFinalized course).

Record DebugInfo := mkDebugInfo {
  dbg_name : string;
  dbg_teacher : address;
  dbg_startTime : uint256;
  dbg_endTime : uint256;
  dbg_isActive : bool;
  dbg_isFinalized : bool;
  dbg_currentTime : uint256;
  dbg_canCheckIn : bool
}.

Definition getCourseDebugInfo (env : Env) (id : uint256) : M DebugInfo :=
  courseExists id ;;;
  let* s := get in
  let course := course_at s id in
  let currentTime := block_timestamp env in
  let canCheckIn :=
    bool_decide (startTime course <= currentTime)
    && bool_decide (currentTime <= endTime course)
    && negb (isFinalized course)
    && isActive course in
  ret (mkDebugInfo (name course) (teacher course) (startTime course)
         (endTime course) (isActive course) (isFinalized course)
         currentTime canCheckIn).

Definition hasStudentCheckedIn (id : uint256) (student : address) : M bool :=
  courseExists id ;;;
  ret true.

(** ** Transactions *)

(** The state-changing entry points, plus [Other] for a call whose
    selector the contract does not define (it has no fallback). *)
Inductive Call :=
| RegisterTeacher (who : address)
| RegisterStudent (who : address)
| SelfRegister
| CreateCourse (nm : string) (start stop : uint256)
| CheckIn (id : uint256) (encryptedStatus : externalEuint8) (proof : input_proof)
| GenerateRandomBonus (student : address)
| FinalizeCourse (id : uint256)
| ToggleCourseStatus (id : uint256)
| CompareStudentScores (student1 student2 : address)
| Other (signature : string).

(** Running a computation as a transaction keeps the final state only. *)
Definition exec {A} (m : M A) (s : State) : result State :=
  match m s with Ok (_, s') => Ok s' | Revert why => Revert why end.

(** Running it as a read-only call keeps the returned value only. *)
Definition view {A} (m : M A) (s : State) : result A :=
  match m s with Ok (a, _) => Ok a | Revert why => Revert why end.

Definition step (env : Env) (c : Call) (s : State) : result State :=
  match c with
  | RegisterTeacher who => exec (registerTeacher env who) s
  | RegisterStudent who => exec (registerStudent env who) s
  | SelfRegister => exec (selfRegister env) s
  | CreateCourse nm start stop => exec (createCourse env nm start stop) s
  | CheckIn id x p => exec (checkIn env id x p) s
  | GenerateRandomBonus student => exec (generateRandomBonus env student) s
  | FinalizeCourse id => exec (finalizeCourse env id) s
  | ToggleCourseStatus id => exec (toggleCourseStatus env id) s
  | CompareStudentScores a b => exec (compareStudentScores env a b) s
  | Other _ => Revert NoSuchFunction
  end.

(** States the ledger can be in: the freshly deployed contract, and
    whatever a successful transaction makes of a reachable state. *)
Inductive reachable : State -> Prop :=
| reachable_deploy deployer : reachable (constructor deployer)
| reachable_step s env c s' :
    reachable s -> step env c s = Ok s' -> reachable s'.

(** A transaction log is replayed in inclusion order; a reverted
    transaction changes nothing and the log goes on. *)
Fixpoint replay (txs : list (Env * Call)) (s : State) : State :=
  match txs with
  | [] => s
  | (env, c) :: rest =>
      match step env c s with
      | Ok s' => replay rest s'
      | Revert _ => replay rest s
      end
  end.

(** ** Reading the model *)

(** The courseExists modifier passes. *)
Definition course_exists (s : State) (id : uint256) : Prop :=
  0 < id ∧ id < nextCourseId s ∧ courseId (course_at s id) = id.

(** The ledger [s] with the isActive flag of course [id], if stored, set
    to [b] and nothing else touched. *)
Definition set_isActive (id : uint256) (b : bool) (s : State) : State :=
  set_courses (alter (with_active b) id (courses s)) s.

(** Shape of the storage in every state the ledger can reach. *)
Record Inv (s : State) : Prop := mkInv {
  inv_next : 1 <= nextCourseId s;
  inv_courses : ∀ id c, courses s !! id = Some c →
      courseId c = id ∧ 0 < id ∧ id < nextCourseId s
      ∧ startTime c < endTime c
      ∧ teacher c ∈ isTeacher s
      ∧ (isFinalized c = true → isActive c = false);
  inv_total : ∀ id c, encryptedTotalAttendance s !! id = Some c →
      ct_plain c < 2 ^ 32;
  inv_score : ∀ a c, encryptedStudentScore s !! a = Some c →
      ct_plain c < 2 ^ 32;
  inv_cell : ∀ k c, encryptedAttendance s !! k = Some c →
      ct_plain c < 2 ^ 8
}.

(** Two course records that agree on everything a teacher cannot edit. *)
Definition same_identity (c0 c1 : Course) : Prop :=
  courseId c1 = courseId c0 ∧ name c1 = name c0 ∧ teacher c1 = teacher c0
  ∧ startTime c1 = startTime c0 ∧ endTime c1 = endTime c0.

(** ** Scenarios

    Concrete ledgers used to exercise the statements below.  Address 1
    deploys (and is the admin), 2 teaches, 3 and 4 are students, 5 plays
    the odd roles; the contract itself lives at address 999. *)

Definition tx (who : address) (now : uint256) (c : Call) : Env * Call :=
  (mkEnv who now 999 255, c).

Definition present : externalEuint8 := ExternalEuint8 1.
Definition absent : externalEuint8 := ExternalEuint8 2.
Definition valid : input_proof := InputProof true.

(** A course running from 1060 to 4660 with one self-registered and one
    admin-registered student. *)
Definition classroom : State :=
  replay [ tx 1 1000 (RegisterTeacher 2);
           tx 2 1000 (CreateCourse "math" 1060 4660);
           tx 3 1000 SelfRegister;
           tx 1 1000 (RegisterStudent 4) ] (constructor 1).

(** The same course after its teacher switched it off. *)
Definition switched_off : State :=
  replay [ tx 2 1010 (ToggleCourseStatus 1) ] classroom.

(** The same course finalized before it even started. *)
Definition closed_early : State :=
  replay [ tx 2 1010 (FinalizeCourse 1) ] classroom.

(** The finalized course, with a second teacher registered afterwards. *)
Definition closed_with_colleague : State :=
  replay [ tx 1 1020 (RegisterTeacher 5) ] closed_early.

(** An address that the admin made both a teacher and a student. *)
Definition double_role : State :=
  replay [ tx 1 1000 (RegisterTeacher 5);
           tx 1 1000 (RegisterStudent 5) ] (constructor 1).

(** The state left by [n + 1] maximal bonuses handed to [student]. *)
Definition after_bonuses (n : N) (env : Env) (student : address) (s : State) : State :=
  set_encryptedStudentScore
    (sstore student
       (FHE.allow
          (FHE.allow
             (Some (Ciphertext
                ((FHE.plain (encryptedStudentScore s !! student)
                  + (n + 1) * (fhe_random env mod 2 ^ 8)) mod 2 ^ 32) ∅))
             (this env))
          student)
       (encryptedStudentScore s)) s.

(** Student 3 one point short of the 32-bit ceiling: 16843009 bonuses
    of 255 each add up to 2^32 - 1. *)
Definition saturated : State :=
  after_bonuses 16843008 (mkEnv 2 1061 999 255) 3 classroom.

(** ** Where the encrypted cells live

    [anchored s]: every attendance cell of [s] belongs to a stored course
    and a registered student, and a course total is kept exactly for the
    stored courses. *)
Definition anchored (s : State) : Prop :=
  (∀ id a, is_Some (encryptedAttendance s !! (id, a)) →
     is_Some (courses s !! id) ∧ a ∈ isStudent s)
  ∧ (∀ id, is_Some (encryptedTotalAttendance s !! id)
           ↔ is_Some (courses s !! id)).

(** The course ids announced by the CourseCreated events of a log, in
    order. *)
Definition created_ids (evs : list Event) : list N :=
  omap (λ e, match e with CourseCreated id _ _ => Some id | _ => None end) evs.

(** ** The front end's contract hook

    [useMaskedAttendance] wraps the contract for the pages.  Its
    [checkIn] first asks the chain, through the read-only contract, what
    the contract itself will check, then encrypts the status and sends
    the transaction; whatever is thrown on the way ends in [handleError].
    The browser side is given by [Browser]: which references are set, the
    signer's address, the wall clock, the encryption SDK, what the
    provider throws for a reverted call, and the block that takes the
    transaction.  Reads are answered from the chain state at hand. *)

(** What [catch (error)] sees: [error.code] and [error.message]. *)
Record JsError := mkJsError { code : option Z; message : string }.

(** [new Error(msg)] *)
Definition thrown (msg : string) : JsError := mkJsError None msg.

Record HookState := mkHookState { isLoading : bool; error : option string }.

Record Browser := mkBrowser {
  contractRef : bool;
  readOnlyContractRef : bool;
  fhevmInstance : bool;
  signer : option address;
  clock : N;
  encrypt : N → JsError + input_proof;
  rpc_error : revert_reason → JsError;
  block : Env;
  (* what ethers throws when asked to encode, as a uint256, a number that
     is not a safe integer *)
  encode_error : N → JsError
}.

(** A course id reaches the hook as a JavaScript number; [id] is its
    value.  The safe integers are those below 2^53. *)
Definition safe_integer (id : N) : Prop := id < 2 ^ 53.

(** [Number(x)] for a non-negative bigint below 2^1024: exact below
    2^53, rounded to 53 significant bits (ties to even) above. *)
Definition toNumber (n : N) : N :=
  if bool_decide (n < 2 ^ 53) then n
  else
    let k := N.log2 n - 52 in
    let q := N.shiftr n k in
    let r := N.land n (N.ones k) in
    let half := 2 ^ (k - 1) in
    let q' := if bool_decide (half < r) || (bool_decide (r = half) && N.odd q)
              then q + 1 else q in
    N.shiftl q' k.

Module Hook.

(** The message [handleError] passes to [setError]. *)
Definition handleError (e : JsError) (operation : string) : string :=
  if bool_decide (code e = Some 4001%Z) then "Transaction rejected by user"
  else if bool_decide (code e = Some (-32603)%Z) then "Internal JSON-RPC error"
  else if bool_decide (message e ≠ "") then message e
  else operation +:+ " failed".

Definition checkIn (b : Browser) (chain : State) (id : N)
    (isAttending : bool) (h : HookState) : HookState * State :=
  match contractRef b, fhevmInstance b, signer b with
  | true, true, Some userAddress =>
      (* setIsLoading(true); setError(null); try { ... } *)
      let attempt : JsError + State :=
        let isStudentRegistered :=
          readOnlyContractRef b && bool_decide (userAddress ∈ isStudent chain) in
        if negb isStudentRegistered then
          inl (thrown "您还没有注册为学生，请先注册或联系管理员")
        else
          (* readOnlyContractRef.current is set here, or the check above
             has thrown; courses(courseId) encodes its argument first *)
          if negb (bool_decide (safe_integer id)) then
            inl (encode_error b id)
          else
          let course := course_at chain id in
          if bool_decide (courseId course = 0) then
            inl (thrown ("课程 " +:+ pretty id +:+ " 不存在"))
          else
            let currentTime := clock b in
            if bool_decide (currentTime < toNumber (startTime course)) then
              inl (thrown "课程尚未开始")
            else if bool_decide (toNumber (endTime course) < currentTime) then
              inl (thrown "课程已结束")
            else if isFinalized course then
              inl (thrown "课程已完结")
            else
              match encrypt b (if isAttending then 1 else 2) with
              | inl e => inl e
              | inr inputProof =>
                  let env := mkEnv userAddress (block_timestamp (block b))
                               (this (block b)) (fhe_random (block b)) in
                  match step env
                          (CheckIn id
                             (ExternalEuint8 (if isAttending then 1 else 2))
                             inputProof) chain with
                  | Ok chain' => inr chain'
                  | Revert why => inl (rpc_error b why)
                  end
              end
      in
      match attempt with
      | inr chain' => (mkHookState false None, chain')
      | inl e => (mkHookState false (Some (handleError e "Check in")), chain)
      end
  | _, _, _ =>
      (mkHookState (isLoading h) (Some "Required dependencies not available"),
       chain)
  end.


End Hook.


(** * Proofs *)

(** ** Storage slots *)

Section Slots.
Context `{Countable K}.
Implicit Types (m : gmap K ciphertext) (e : option ciphertext).

Lemma lookup_sstore_eq k e m : sstore k e m !! k = e.
Proof.
  destruct e as [c|]; unfold sstore.
  - apply lookup_insert_eq.
  - apply lookup_delete_eq.
Qed.

Lemma lookup_sstore_ne k k' e m : k ≠ k' → sstore k e m !! k' = m !! k'.
Proof.
  intros Hne. destruct e as [c|]; unfold sstore.
  - by apply lookup_insert_ne.
  - by apply lookup_delete_ne.
Qed.

Lemma lookup_sstore k k' e m :
  sstore k e m !! k' = if decide (k = k') then e else m !! k'.
Proof.
  case_decide; subst; auto using lookup_sstore_eq, lookup_sstore_ne.
Qed.

Lemma sstore_sstore k e e' m : sstore k e' (sstore k e m) = sstore k e' m.
Proof.
  apply map_eq. intros k'. rewrite !lookup_sstore. by case_decide.
Qed.
End Slots.

Lemma plain_allow e who : FHE.plain (FHE.allow e who) = FHE.plain e.
Proof. by destruct e. Qed.

Lemma mod32_lt (n : N) : n mod 2 ^ 32 < 2 ^ 32.
Proof. apply N.mod_upper_bound. lia. Qed.

Lemma mod8_lt (n : N) : n mod 2 ^ 8 < 2 ^ 8.
Proof. apply N.mod_upper_bound. lia. Qed.

Lemma course_at_Some s id c : courses s !! id = Some c → course_at s id = c.
Proof. unfold course_at. by intros ->. Qed.

(** An existing course is a stored one. *)
Lemma course_exists_lookup s id :
  course_exists s id → courses s !! id = Some (course_at s id).
Proof.
  intros (Hpos & _ & Hid). unfold course_at in *.
  destruct (courses s !! id) as [c|]; [done|].
  simpl in Hid. lia.
Qed.

(** ** Symbolic execution of a call *)

Ltac munfold :=
  cbv [exec view step registerTeacher registerStudent selfRegister createCourse
       finalizeCourse toggleCourseStatus checkIn generateRandomBonus
       compareStudentScores getStudentAttendance getCourseAttendance
       getStudentScore getCourseInfo getCourseDebugInfo hasStudentCheckedIn
       onlyAdmin onlyTeacher onlyStudent courseExists
       bind get modify ret revert require lift checked_sub checked_succ
       FHE.fromExternal
       nextCourseId admin courses isTeacher isStudent encryptedAttendance
       encryptedTotalAttendance encryptedStudentScore events
       set_nextCourseId set_courses set_isTeacher set_isStudent
       set_encryptedAttendance set_encryptedTotalAttendance
       set_encryptedStudentScore emit course_at course_exists] in *.

Ltac guards :=
  repeat match goal with
  | H : _ && _ = true |- _ => apply andb_true_iff in H; destruct H
  | H : _ || _ = false |- _ => apply orb_false_iff in H; destruct H
  | H : bool_decide _ = true |- _ => apply bool_decide_eq_true in H
  | H : bool_decide _ = false |- _ => apply bool_decide_eq_false in H
  | H : negb _ = true |- _ => apply negb_true_iff in H
  | H : negb _ = false |- _ => apply negb_false_iff in H
  end.

Lemma Ok_inj {A} (a b : A) : Ok a = Ok b → a = b.
Proof. by intros [= ->]. Qed.

(** [H : exec m s = Ok s'] with [s] a constructor: walk through the
    guards of [m], keep the passing branch and name the final state. *)
Ltac minv H :=
  munfold; try discriminate H;
  repeat match type of H with
  | context [if ?c then _ else _] => destruct c eqn:?; try discriminate H
  end;
  apply Ok_inj in H; subst; guards;
  rewrite ?lookup_sstore_eq, ?sstore_sstore.

Lemma inv_constructor deployer : Inv (constructor deployer).
Proof.
  split; simpl; done || lia.
Qed.

Lemma stored_course_nonzero (crs : gmap N Course) id :
  courseId (default zeroCourse (crs !! id)) ≠ 0 →
  crs !! id = Some (default zeroCourse (crs !! id)).
Proof. destruct (crs !! id); simpl; [done|]. intros []; done. Qed.

(** ** The storage invariant *)

Lemma sstore_bound `{Countable K} (B : N) (k0 : K) e (m : gmap K ciphertext) :
  (∀ k c, m !! k = Some c → ct_plain c < B) →
  (∀ c, e = Some c → ct_plain c < B) →
  ∀ k c, sstore k0 e m !! k = Some c → ct_plain c < B.
Proof.
  intros Hm He k c. rewrite lookup_sstore. case_decide; eauto.
Qed.

Lemma allow_bound (B : N) e who :
  (∀ c, e = Some c → ct_plain c < B) →
  ∀ c, FHE.allow e who = Some c → ct_plain c < B.
Proof.
  destruct e as [c0|]; simpl; [|done].
  intros He c [= <-]. simpl. by apply He.
Qed.

Lemma add_bound a b c : FHE.add a b = Some c → ct_plain c < 2 ^ 32.
Proof. intros [= <-]. apply mod32_lt. Qed.

Lemma asEuint32_bound v c : FHE.asEuint32 v = Some c → ct_plain c < 2 ^ 32.
Proof. intros [= <-]. apply mod32_lt. Qed.




Lemma fromExternal_bound (v : N) c :
  Some (Ciphertext (v mod 2 ^ 8) ∅) = Some c → ct_plain c < 2 ^ 8.
Proof. intros [= <-]. apply mod8_lt. Qed.

Lemma inv_step env c s s' : Inv s → step env c s = Ok s' → Inv s'.
Proof.
  intros [Hn Hc Ht Hs Ha] H. destruct s, c; minv H.
  all: split; cbn [nextCourseId admin courses isTeacher isStudent encryptedAttendance
       encryptedTotalAttendance encryptedStudentScore events]; try done.
  all: try (by repeat first [apply sstore_bound | apply allow_bound
                            | apply add_bound | apply asEuint32_bound
                            | apply fromExternal_bound | done ]).
  - (* registerTeacher *)
    intros id c Hl. destruct (Hc _ _ Hl) as (?&?&?&?&?&?).
    repeat split; auto. apply elem_of_union. by right.
  - (* createCourse: the counter *) lia.
  - (* createCourse: the registry *)
    intros id c. rewrite lookup_insert. case_decide as Hid.
    + intros [= <-]. simpl. subst id. repeat split; first [done | lia].
    + intros Hl. destruct (Hc _ _ Hl) as (?&?&?&?&?&?).
      repeat split; auto. lia.
  - (* finalizeCourse *)
    rewrite lookup_insert_eq, insert_insert_eq. simpl.
    match goal with Hz : courseId _ ≠ 0 |- _ =>
      pose proof (stored_course_nonzero _ _ Hz) as Hst end.
    destruct (Hc _ _ Hst) as (?&?&?&?&?&?).
    intros id0 c. rewrite lookup_insert. case_decide as Hid.
    + intros [= <-]. subst id0. simpl. repeat split; auto.
    + apply Hc.
  - (* toggleCourseStatus *)
    match goal with Hz : courseId _ ≠ 0 |- _ =>
      pose proof (stored_course_nonzero _ _ Hz) as Hst end.
    destruct (Hc _ _ Hst) as (?&?&?&?&?&?).
    intros id0 c. rewrite lookup_insert. case_decide as Hid.
    + intros [= <-]. subst id0. simpl. repeat split; auto. congruence.
    + apply Hc.
Qed.

Lemma inv_reachable s : reachable s → Inv s.
Proof.
  induction 1; eauto using inv_constructor, inv_step.
Qed.

(** ** What no transaction changes *)

Lemma step_admin env c s s' : step env c s = Ok s' → admin s' = admin s.
Proof.
  intros H. destruct s, c; minv H; reflexivity.
Qed.

Lemma step_courses env c s s' id c0 :
  Inv s → step env c s = Ok s' → courses s !! id = Some c0 →
  ∃ c1, courses s' !! id = Some c1 ∧ same_identity c0 c1
        ∧ (isFinalized c0 = true →
           isFinalized c1 = true ∧ isActive c1 = isActive c0).
Proof.
  intros [Hn Hc _ _ _] H Hl. destruct s, c; minv H;
    cbn [courses] in *; try (by exists c0).
  - (* createCourse writes a fresh slot *)
    destruct (Hc _ _ Hl) as (?&?&?&_).
    exists c0. rewrite lookup_insert_ne by lia. done.
  - (* finalizeCourse *)
    rewrite lookup_insert_eq, insert_insert_eq. simpl.
    destruct (decide (id0 = id)) as [->|Hne].
    + rewrite lookup_insert_eq, Hl in *. simpl in *.
      eexists; split; [done|]. split; [done|]. congruence.
    + rewrite lookup_insert_ne by done. by exists c0.
  - (* toggleCourseStatus *)
    destruct (decide (id0 = id)) as [->|Hne].
    + rewrite lookup_insert_eq, Hl in *. simpl in *.
      eexists; split; [done|]. split; [done|]. congruence.
    + rewrite lookup_insert_ne by done. by exists c0.
Qed.

Lemma same_identity_trans c0 c1 c2 :
  same_identity c0 c1 → same_identity c1 c2 → same_identity c0 c2.
Proof. unfold same_identity. intuition congruence. Qed.

(** ** Replaying a log *)

Lemma reachable_replay txs s : reachable s → reachable (replay txs s).
Proof.
  revert s. induction txs as [|[env c] txs IH]; intros s Hs; simpl; [done|].
  destruct (step env c s) as [s'|] eqn:Hstep; [|by apply IH].
  apply IH. by eapply reachable_step.
Qed.

Lemma replay_admin txs s : admin (replay txs s) = admin s.
Proof.
  revert s. induction txs as [|[env c] txs IH]; intros s; simpl; [done|].
  destruct (step env c s) as [s'|] eqn:Hstep; [|by apply IH].
  rewrite IH. by eapply step_admin.
Qed.

Lemma replay_courses txs s id c0 :
  Inv s → courses s !! id = Some c0 →
  ∃ c1, courses (replay txs s) !! id = Some c1 ∧ same_identity c0 c1
        ∧ (isFinalized c0 = true →
           isFinalized c1 = true ∧ isActive c1 = isActive c0).
Proof.
  revert s c0. induction txs as [|[env c] txs IH]; intros s c0 Hinv Hl; simpl.
  - exists c0. by repeat split.
  - destruct (step env c s) as [s'|] eqn:Hstep; [|by apply IH].
    destruct (step_courses _ _ _ _ _ _ Hinv Hstep Hl) as (c1 & Hl1 & Hid1 & Hf1).
    destruct (IH s' c1 (inv_step _ _ _ _ Hinv Hstep) Hl1) as (c2 & Hl2 & Hid2 & Hf2).
    exists c2. split; [done|]. split; [by eapply same_identity_trans|].
    intros Hf. destruct (Hf1 Hf) as [Hf1' Ha1]. destruct (Hf2 Hf1') as [? ?].
    split; congruence.
Qed.

(** A run of bonuses by one teacher accumulates modulo 2^32. *)
Lemma bonus_iter (n : N) env student s :
  reachable s → msg_sender env ∈ isTeacher s →
  reachable (after_bonuses n env student s).
Proof.
  intros Hs Ht. induction n as [|n IH] using N.peano_ind.
  - eapply reachable_step with (env := env) (c := GenerateRandomBonus student);
      [exact Hs|].
    destruct s. munfold. rewrite bool_decide_eq_true_2 by done.
    rewrite ?lookup_sstore_eq, ?sstore_sstore.
    unfold after_bonuses, FHE.add, FHE.castEuint32, FHE.randEuint8. simpl.
    rewrite (N.mod_small (fhe_random env mod 2 ^ 8) (2 ^ 32))
      by (pose proof (mod8_lt (fhe_random env)); lia).
    unfold set_encryptedStudentScore. simpl. do 5 f_equal. lia.
  - eapply reachable_step with (env := env) (c := GenerateRandomBonus student);
      [exact IH|].
    destruct s. unfold after_bonuses. munfold.
    rewrite bool_decide_eq_true_2 by done.
    rewrite ?lookup_sstore_eq, ?sstore_sstore.
    unfold FHE.add, FHE.castEuint32, FHE.randEuint8. simpl.
    rewrite (N.mod_small (fhe_random env mod 2 ^ 8) (2 ^ 32))
      by (pose proof (mod8_lt (fhe_random env)); lia).
    rewrite N.Div0.add_mod_idemp_l.
    unfold set_encryptedStudentScore. simpl. do 5 f_equal. lia.
Qed.

(** ** Check-in *)

(** The increment a submission contributes: [k] for "present", else 0. *)
Lemma select_present (v k a b : N) :
  k < 2 ^ 32 →
  FHE.plain (FHE.select (FHE.eq (FHE.allow (FHE.allow
      (Some (Ciphertext (v mod 2 ^ 8) ∅)) a) b) (FHE.asEuint8 1))
    (FHE.asEuint32 k) (FHE.asEuint32 0))
  = if bool_decide (v mod 2 ^ 8 = 1) then k else 0.
Proof.
  intros Hk. unfold FHE.select, FHE.eq, FHE.asEuint8, FHE.asEuint32. simpl.
  change (1 mod 2 ^ 8) with 1. rewrite (N.mod_small k) by done.
  repeat case_bool_decide; done.
Qed.

Lemma checkIn_effect env id x p s s' :
  exec (checkIn env id x p) s = Ok s' →
  (∃ c, encryptedAttendance s' !! (id, msg_sender env) = Some c
        ∧ ct_plain c = ext_plain x mod 2 ^ 8
        ∧ this env ∈ ct_acl c ∧ msg_sender env ∈ ct_acl c
        ∧ teacher (course_at s id) ∈ ct_acl c)
  ∧ FHE.plain (encryptedTotalAttendance s' !! id)
    = (FHE.plain (encryptedTotalAttendance s !! id)
       + if bool_decide (ext_plain x mod 2 ^ 8 = 1) then 1 else 0) mod 2 ^ 32
  ∧ FHE.plain (encryptedStudentScore s' !! msg_sender env)
    = (FHE.plain (encryptedStudentScore s !! msg_sender env)
       + if bool_decide (ext_plain x mod 2 ^ 8 = 1) then 10 else 0) mod 2 ^ 32.
Proof.
  intros H. destruct s; minv H.
  cbn [encryptedAttendance encryptedTotalAttendance encryptedStudentScore].
  split; [|split].
  - eexists. split; [reflexivity|]. simpl.
    rewrite !elem_of_union, !elem_of_singleton. tauto.
  - rewrite !plain_allow. unfold FHE.add at 1. cbn [FHE.plain ct_plain].
    by rewrite select_present by done.
  - rewrite !plain_allow. unfold FHE.add at 1. cbn [FHE.plain ct_plain].
    by rewrite select_present by done.
Qed.

Lemma plain_total_bound s id :
  Inv s → FHE.plain (encryptedTotalAttendance s !! id) < 2 ^ 32.
Proof.
  intros Hinv. destruct (encryptedTotalAttendance s !! id) as [c|] eqn:E; simpl.
  - eapply inv_total; eauto.
  - done.
Qed.

Lemma plain_score_bound s a :
  Inv s → FHE.plain (encryptedStudentScore s !! a) < 2 ^ 32.
Proof.
  intros Hinv. destruct (encryptedStudentScore s !! a) as [c|] eqn:E; simpl.
  - eapply inv_score; eauto.
  - done.
Qed.

(** C1 (amended): a successful check-in stores the submitted ciphertext
    as the student's attendance cell for the course; when the submitted
    status is 1 (present) the course total becomes (prior + 1) mod 2^32
    and the student's score (prior + 10) mod 2^32, which are prior + 1
    and prior + 10 as long as the 32-bit counters do not overflow; when
    the status is 2 (absent) both plaintexts are unchanged. *)
Theorem checkIn_updates s env id x p s' :
  reachable s →
  exec (checkIn env id x p) s = Ok s' →
  let total_before := FHE.plain (encryptedTotalAttendance s !! id) in
  let total_after := FHE.plain (encryptedTotalAttendance s' !! id) in
  let score_before := FHE.plain (encryptedStudentScore s !! msg_sender env) in
  let score_after := FHE.plain (encryptedStudentScore s' !! msg_sender env) in
  (∃ c, encryptedAttendance s' !! (id, msg_sender env) = Some c
        ∧ ct_plain c = ext_plain x mod 2 ^ 8)
  ∧ (ext_plain x = 1 →
       total_after = (total_before + 1) mod 2 ^ 32
       ∧ score_after = (score_before + 10) mod 2 ^ 32
       ∧ (total_before + 1 < 2 ^ 32 → total_after = total_before + 1)
       ∧ (score_before + 10 < 2 ^ 32 → score_after = score_before + 10))
  ∧ (ext_plain x = 2 →
       total_after = total_before ∧ score_after = score_before).
Proof.
  intros Hs H. apply inv_reachable in Hs.
  destruct (checkIn_effect _ _ _ _ _ _ H) as ((c & Hc & Hv & _) & Ht & Hsc).
  pose proof (plain_total_bound s id Hs) as Bt.
  pose proof (plain_score_bound s (msg_sender env) Hs) as Bs.
  cbv zeta. split; [by exists c|]. split.
  - intros Hx. rewrite Hx in *. change (1 mod 2 ^ 8) with 1 in *.
    rewrite bool_decide_eq_true_2 in Ht, Hsc by done.
    repeat split; try done.
    + intros Hlt. by rewrite Ht, N.mod_small.
    + intros Hlt. by rewrite Hsc, N.mod_small.
  - intros Hx. rewrite Hx in *. change (2 mod 2 ^ 8) with 2 in *.
    rewrite bool_decide_eq_false_2 in Ht, Hsc by done.
    rewrite N.add_0_r, N.mod_small in Ht, Hsc by done. done.
Qed.

Lemma reachable_classroom : reachable classroom.
Proof. apply reachable_replay, reachable_deploy. Qed.

Lemma reachable_saturated : reachable saturated.
Proof.
  apply bonus_iter; [exact reachable_classroom|].
  apply (bool_decide_unpack _). vm_compute. exact I.
Qed.

Lemma checkIn_updates_witness :
  (∃ s', exec (checkIn (mkEnv 3 1061 999 0) 1 present valid) classroom = Ok s'
         ∧ FHE.plain (encryptedTotalAttendance s' !! 1) = 1
         ∧ FHE.plain (encryptedStudentScore s' !! 3) = 10)
  ∧ (∃ s', exec (checkIn (mkEnv 4 1061 999 0) 1 absent valid) classroom = Ok s'
           ∧ FHE.plain (encryptedTotalAttendance s' !! 1) = 0
           ∧ FHE.plain (encryptedStudentScore s' !! 4) = 0).
Proof.
  split.
  - destruct (exec (checkIn (mkEnv 3 1061 999 0) 1 present valid) classroom)
      as [s'|] eqn:E; [|vm_compute in E; discriminate E].
    exists s'. split; [reflexivity|].
    destruct (checkIn_updates classroom (mkEnv 3 1061 999 0) 1 present valid s'
                reachable_classroom E) as (_ & Hp & _).
    destruct (Hp eq_refl) as (_ & _ & Ht & Hsc).
    split; [apply Ht|apply Hsc]; vm_compute; reflexivity.
  - destruct (exec (checkIn (mkEnv 4 1061 999 0) 1 absent valid) classroom)
      as [s'|] eqn:E; [|vm_compute in E; discriminate E].
    exists s'. split; [reflexivity|].
    destruct (checkIn_updates classroom (mkEnv 4 1061 999 0) 1 absent valid s'
                reachable_classroom E) as (_ & _ & Ha).
    destruct (Ha eq_refl) as (Ht & Hsc).
    split; [etransitivity; [exact Ht|] | etransitivity; [exact Hsc|]];
      vm_compute; reflexivity.
Defined.

(** C1, as stated, fails when a 32-bit counter wraps: student 3 holds a
    score of 2^32 - 1, checks in as present, and the score is 9 and not
    2^32 + 9. *)
Lemma checkIn_updates_counterexample :
  reachable saturated
  ∧ FHE.plain (encryptedStudentScore saturated !! 3) = 4294967295
  ∧ ∃ s', exec (checkIn (mkEnv 3 1061 999 0) 1 present valid) saturated = Ok s'
          ∧ FHE.plain (encryptedStudentScore s' !! 3) = 9
          ∧ FHE.plain (encryptedStudentScore s' !! 3)
            ≠ FHE.plain (encryptedStudentScore saturated !! 3) + 10.
Proof.
  split; [exact reachable_saturated|]. split; [vm_compute; reflexivity|].
  eexists. split; [vm_compute; reflexivity|].
  split; [vm_compute; reflexivity|]. vm_compute. discriminate.
Qed.

(** No resubmission guard: whether a check-in goes through does not
    depend on the attendance cells already stored. *)
Lemma checkIn_ignores_cells env id x p cells s :
  is_ok (exec (checkIn env id x p) (set_encryptedAttendance cells s))
  = is_ok (exec (checkIn env id x p) s).
Proof.
  destruct s. munfold.
  repeat match goal with
  | |- context [if ?c then _ else _] => destruct c
  end; reflexivity.
Qed.

(** C3 (amended): a further successful check-in by the same student on
    the same course, whatever happened in between, is not guarded
    against: it overwrites the stored cell with its own ciphertext and
    adds to the course total and to the score according to its own
    status only; two submissions that both encode "present" (with nothing
    else touching that total and that score in between) raise the total
    by 2 and the score by 20 modulo 2^32, that is by exactly 2 and 20
    unless a 32-bit counter overflows. *)
Theorem resubmission_double_counts s env1 env2 id x1 p1 x2 p2 txs s1 s2 :
  reachable s →
  msg_sender env2 = msg_sender env1 →
  exec (checkIn env1 id x1 p1) s = Ok s1 →
  exec (checkIn env2 id x2 p2) (replay txs s1) = Ok s2 →
  let who := msg_sender env1 in
  let total st := FHE.plain (encryptedTotalAttendance st !! id) in
  let score st := FHE.plain (encryptedStudentScore st !! who) in
  let mid := replay txs s1 in
  (∃ c, encryptedAttendance s2 !! (id, who) = Some c
        ∧ ct_plain c = ext_plain x2 mod 2 ^ 8)
  ∧ (∀ cells, is_ok (exec (checkIn env2 id x2 p2)
                       (set_encryptedAttendance cells mid)) = true)
  ∧ total s2 = (total mid + if bool_decide (ext_plain x2 mod 2 ^ 8 = 1)
                            then 1 else 0) mod 2 ^ 32
  ∧ score s2 = (score mid + if bool_decide (ext_plain x2 mod 2 ^ 8 = 1)
                            then 10 else 0) mod 2 ^ 32
  ∧ (ext_plain x1 = 1 → ext_plain x2 = 1 →
     total mid = total s1 → score mid = score s1 →
       total s2 = (total s + 2) mod 2 ^ 32
       ∧ score s2 = (score s + 20) mod 2 ^ 32
       ∧ (total s + 2 < 2 ^ 32 → total s2 = total s + 2)
       ∧ (score s + 20 < 2 ^ 32 → score s2 = score s + 20)).
Proof.
  intros Hs Hwho H1 H2. cbv zeta.
  destruct (checkIn_effect _ _ _ _ _ _ H1) as (_ & Ht1 & Hsc1).
  destruct (checkIn_effect _ _ _ _ _ _ H2) as ((c & Hc & Hv & _) & Ht2 & Hsc2).
  rewrite Hwho in *.
  split; [by exists c|]. split.
  { intros cells. rewrite checkIn_ignores_cells. by rewrite H2. }
  split; [done|]. split; [done|].
  intros Hx1 Hx2 Hmt Hms. rewrite Hx1, Hx2 in *. change (1 mod 2 ^ 8) with 1 in *.
  rewrite bool_decide_eq_true_2 in Ht1, Hsc1, Ht2, Hsc2 by done.
  assert (Et : FHE.plain (encryptedTotalAttendance s2 !! id)
               = (FHE.plain (encryptedTotalAttendance s !! id) + 2) mod 2 ^ 32).
  { rewrite Ht2, Hmt, Ht1, N.Div0.add_mod_idemp_l. f_equal. lia. }
  assert (Es : FHE.plain (encryptedStudentScore s2 !! msg_sender env1)
               = (FHE.plain (encryptedStudentScore s !! msg_sender env1) + 20)
                 mod 2 ^ 32).
  { rewrite Hsc2, Hms, Hsc1, N.Div0.add_mod_idemp_l. f_equal. lia. }
  split; [done|]. split; [done|]. split.
  - intros Hlt. by rewrite Et, N.mod_small.
  - intros Hlt. by rewrite Es, N.mod_small.
Qed.

Lemma resubmission_double_counts_witness :
  ∃ s1 s2,
    exec (checkIn (mkEnv 3 1061 999 0) 1 present valid) classroom = Ok s1
    ∧ exec (checkIn (mkEnv 3 1062 999 0) 1 present valid) s1 = Ok s2
    ∧ FHE.plain (encryptedTotalAttendance s2 !! 1) = 2
    ∧ FHE.plain (encryptedStudentScore s2 !! 3) = 20.
Proof.
  destruct (exec (checkIn (mkEnv 3 1061 999 0) 1 present valid) classroom)
    as [s1|] eqn:E1; [|vm_compute in E1; discriminate E1].
  destruct (exec (checkIn (mkEnv 3 1062 999 0) 1 present valid) s1)
    as [s2|] eqn:E2.
  - exists s1, s2. split; [reflexivity|]. split; [exact E2|].
    destruct (resubmission_double_counts classroom (mkEnv 3 1061 999 0)
                (mkEnv 3 1062 999 0) 1 present valid present valid [] s1 s2
                reachable_classroom eq_refl E1 E2) as (_ & _ & _ & _ & Hp).
    destruct (Hp eq_refl eq_refl eq_refl eq_refl) as (_ & _ & Ht & Hsc).
    split; [apply Ht|apply Hsc]; vm_compute; reflexivity.
  - vm_compute in E1. apply Ok_inj in E1. subst s1.
    vm_compute in E2. discriminate E2.
Defined.

(** C3, as stated, fails when a 32-bit counter wraps: from a score of
    2^32 - 1, two "present" submissions leave 19, not 2^32 + 19. *)
Lemma resubmission_double_counts_counterexample :
  reachable saturated
  ∧ ∃ s1 s2,
      exec (checkIn (mkEnv 3 1061 999 0) 1 present valid) saturated = Ok s1
      ∧ exec (checkIn (mkEnv 3 1062 999 0) 1 present valid) s1 = Ok s2
      ∧ FHE.plain (encryptedStudentScore saturated !! 3) = 4294967295
      ∧ FHE.plain (encryptedStudentScore s2 !! 3) = 19
      ∧ FHE.plain (encryptedStudentScore s2 !! 3)
        ≠ FHE.plain (encryptedStudentScore saturated !! 3) + 20.
Proof.
  split; [exact reachable_saturated|].
  eexists. eexists. split; [vm_compute; reflexivity|].
  split; [vm_compute; reflexivity|].
  split; [vm_compute; reflexivity|].
  split; [vm_compute; reflexivity|]. vm_compute. discriminate.
Qed.

(** The guards of [checkIn], in the order the source evaluates them. *)
Lemma checkIn_guards env id x p s :
  msg_sender env ∈ isStudent s → course_exists s id →
  exec (checkIn env id x p) s
  = if bool_decide (startTime (course_at s id) <= block_timestamp env) then
      if bool_decide (block_timestamp env <= endTime (course_at s id)) then
        if negb (isFinalized (course_at s id)) then
          if proof_ok p then exec (checkIn env id x p) s
          else Revert InvalidInputProof
        else Revert (Error "Course finalized")
      else Revert (Error "Course already ended")
    else Revert (Error "Course not started").
Proof.
  intros Hst (Hpos & Hlt & Hid). destruct s. munfold.
  rewrite !bool_decide_eq_true_2 by done. simpl.
  repeat match goal with
  | |- context [if ?c then _ else _] => destruct c
  end; reflexivity.
Qed.

Lemma checkIn_succeeds env id x p s :
  msg_sender env ∈ isStudent s → course_exists s id →
  startTime (course_at s id) <= block_timestamp env →
  block_timestamp env <= endTime (course_at s id) →
  isFinalized (course_at s id) = false →
  proof_ok p = true →
  is_ok (exec (checkIn env id x p) s) = true.
Proof.
  intros Hst (Hpos & Hlt & Hid) H1 H2 Hf Hp. destruct s. munfold.
  repeat (first [rewrite bool_decide_eq_true_2 by done | rewrite Hf | rewrite Hp];
          cbn [andb orb negb]).
  reflexivity.
Qed.

Lemma is_ok_not_revert {A} (r : result A) why : is_ok r = true → r ≠ Revert why.
Proof. by destruct r. Qed.

(** C2 (amended): for a registered student and an existing course,
    [checkIn] reverts with "Course not started" whenever the block time
    is before startTime, with "Course already ended" whenever it is after
    endTime, and with "Course finalized" whenever the course is finalized
    and the block time lies within [startTime, endTime] (the two time
    checks come first); the bounds are inclusive, so at startTime or at
    endTime exactly neither time check fires and an unfinalized course
    accepts a valid submission. *)
Theorem checkIn_window s env id x p :
  reachable s →
  msg_sender env ∈ isStudent s →
  course_exists s id →
  let c := course_at s id in
  let now := block_timestamp env in
  let r := exec (checkIn env id x p) s in
  (now < startTime c → r = Revert (Error "Course not started"))
  ∧ (endTime c < now → r = Revert (Error "Course already ended"))
  ∧ (startTime c <= now → now <= endTime c → isFinalized c = true →
       r = Revert (Error "Course finalized"))
  ∧ (now = startTime c ∨ now = endTime c →
       r ≠ Revert (Error "Course not started")
       ∧ r ≠ Revert (Error "Course already ended")
       ∧ (isFinalized c = false → proof_ok p = true → is_ok r = true)).
Proof.
  intros Hs Hst Hex. cbv zeta.
  pose proof (inv_courses _ (inv_reachable _ Hs) _ _ (course_exists_lookup _ _ Hex))
    as (_ & _ & _ & Hlt & _).
  rewrite (checkIn_guards _ _ _ _ _ Hst Hex).
  split; [|split; [|split]].
  - intros H. by rewrite bool_decide_eq_false_2 by lia.
  - intros H. rewrite bool_decide_eq_true_2 by lia.
    by rewrite bool_decide_eq_false_2 by lia.
  - intros H1 H2 Hf. rewrite !bool_decide_eq_true_2 by lia. by rewrite Hf.
  - intros Hb.
    assert (H1 : startTime (course_at s id) <= block_timestamp env) by lia.
    assert (H2 : block_timestamp env <= endTime (course_at s id)) by lia.
    rewrite !bool_decide_eq_true_2 by done.
    destruct (isFinalized (course_at s id)) eqn:Hf; simpl;
      [repeat split; discriminate|].
    destruct (proof_ok p) eqn:Hp; [|repeat split; discriminate].
    pose proof (checkIn_succeeds _ _ x _ _ Hst Hex H1 H2 Hf Hp) as Hok.
    repeat split; auto using is_ok_not_revert.
Qed.

Lemma reachable_closed_early : reachable closed_early.
Proof. apply reachable_replay, reachable_classroom. Qed.

Lemma checkIn_window_witness :
  exec (checkIn (mkEnv 3 1010 999 0) 1 present valid) closed_early
    = Revert (Error "Course not started")
  ∧ exec (checkIn (mkEnv 3 5000 999 0) 1 present valid) closed_early
    = Revert (Error "Course already ended")
  ∧ exec (checkIn (mkEnv 3 1060 999 0) 1 present valid) closed_early
    = Revert (Error "Course finalized")
  ∧ is_ok (exec (checkIn (mkEnv 3 4660 999 0) 1 present valid) classroom) = true.
Proof.
  assert (Hst : ∀ s now, s = closed_early ∨ s = classroom →
            msg_sender (mkEnv 3 now 999 0) ∈ isStudent s).
  { intros s now [-> | ->]; apply (bool_decide_unpack _); vm_compute; exact I. }
  assert (Hex : ∀ s, s = closed_early ∨ s = classroom → course_exists s 1).
  { intros s [-> | ->]; repeat split; vm_compute; reflexivity. }
  split; [|split; [|split]].
  - apply (checkIn_window closed_early (mkEnv 3 1010 999 0) 1 present valid
             reachable_closed_early (Hst _ _ (or_introl eq_refl))
             (Hex _ (or_introl eq_refl))).
    vm_compute. reflexivity.
  - apply (checkIn_window closed_early (mkEnv 3 5000 999 0) 1 present valid
             reachable_closed_early (Hst _ _ (or_introl eq_refl))
             (Hex _ (or_introl eq_refl))).
    vm_compute. reflexivity.
  - apply (checkIn_window closed_early (mkEnv 3 1060 999 0) 1 present valid
             reachable_closed_early (Hst _ _ (or_introl eq_refl))
             (Hex _ (or_introl eq_refl))).
    + vm_compute. discriminate.
    + vm_compute. discriminate.
    + vm_compute. reflexivity.
  - apply (checkIn_window classroom (mkEnv 3 4660 999 0) 1 present valid
             reachable_classroom (Hst _ _ (or_intror eq_refl))
             (Hex _ (or_intror eq_refl))).
    + right. vm_compute. reflexivity.
    + vm_compute. reflexivity.
    + reflexivity.
Defined.

(** C2, as stated, fails on a course finalized before it starts: the
    course is finalized, yet a check-in before startTime is turned away
    with "Course not started" and not with "Course finalized". *)
Lemma checkIn_window_counterexample :
  reachable closed_early
  ∧ 3 ∈ isStudent closed_early
  ∧ course_exists closed_early 1
  ∧ isFinalized (course_at closed_early 1) = true
  ∧ block_timestamp (mkEnv 3 1010 999 0) < startTime (course_at closed_early 1)
  ∧ exec (checkIn (mkEnv 3 1010 999 0) 1 present valid) closed_early
    = Revert (Error "Course not started").
Proof.
  split; [exact reachable_closed_early|].
  split; [apply (bool_decide_unpack _); vm_compute; exact I|].
  split; [repeat split; vm_compute; reflexivity|].
  repeat split; vm_compute; reflexivity.
Qed.

(** ** Finalization *)

Lemma finalize_effect env id s s1 :
  exec (finalizeCourse env id) s = Ok s1 →
  msg_sender env = teacher (course_at s id)
  ∧ isFinalized (course_at s1 id) = true
  ∧ isActive (course_at s1 id) = false.
Proof.
  intros H. destruct s; minv H. cbn [courses].
  rewrite !lookup_insert_eq. simpl. done.
Qed.

(** What a finalized course answers to its lifecycle operations. *)
Lemma finalized_rejects env id s :
  Inv s → isFinalized (course_at s id) = true →
  is_ok (exec (finalizeCourse env id) s) = false
  ∧ is_ok (exec (toggleCourseStatus env id) s) = false
  ∧ (msg_sender env = teacher (course_at s id) →
       exec (finalizeCourse env id) s = Revert (Error "Course already finalized")
       ∧ exec (toggleCourseStatus env id) s
         = Revert (Error "Cannot modify finalized course")).
Proof.
  intros Hinv Hf.
  assert (Hl : courses s !! id = Some (course_at s id)).
  { unfold course_at in *. destruct (courses s !! id); [done|discriminate]. }
  destruct (inv_courses _ Hinv _ _ Hl) as (Hid & Hpos & _ & _ & Hteach & _).
  destruct s. munfold. cbn [courses isTeacher] in *.
  split; [|split].
  - repeat (match goal with
            | |- context [if ?c then _ else _] => destruct c eqn:?
            end; cbn [andb orb negb]);
      try reflexivity; rewrite Hf in *; discriminate.
  - repeat (match goal with
            | |- context [if ?c then _ else _] => destruct c eqn:?
            end; cbn [andb orb negb]);
      try reflexivity; rewrite Hf in *; discriminate.
  - intros ->.
    repeat (first [ rewrite (bool_decide_eq_true_2 (_ ∈ _)) by done
                  | rewrite (bool_decide_eq_false_2 (_ = 0)) by lia
                  | rewrite (bool_decide_eq_true_2 (_ = _)) by done
                  | rewrite Hf ];
            cbn [andb orb negb]).
    done.
Qed.

(** What the same operations answer to anybody else: the role checks
    come before the finalization check. *)
Lemma others_rejected env id s :
  Inv s → isFinalized (course_at s id) = true →
  (msg_sender env ∉ isTeacher s →
     exec (finalizeCourse env id) s = Revert (Error "Only teacher")
     ∧ exec (toggleCourseStatus env id) s = Revert (Error "Only teacher"))
  ∧ (msg_sender env ∈ isTeacher s →
     msg_sender env ≠ teacher (course_at s id) →
     exec (finalizeCourse env id) s
       = Revert (Error "Only course teacher can finalize")
     ∧ exec (toggleCourseStatus env id) s
       = Revert (Error "Only course teacher can modify")).
Proof.
  intros Hinv Hf.
  assert (Hl : courses s !! id = Some (course_at s id)).
  { unfold course_at in *. destruct (courses s !! id); [done|discriminate]. }
  destruct (inv_courses _ Hinv _ _ Hl) as (Hid & Hpos & _).
  destruct s. munfold. cbn [courses isTeacher] in *.
  split.
  - intros Hno. rewrite (bool_decide_eq_false_2 (_ ∈ _)) by done. done.
  - intros Hyes Hne.
    repeat (first [ rewrite (bool_decide_eq_true_2 (_ ∈ _)) by done
                  | rewrite (bool_decide_eq_false_2 (_ = 0)) by lia
                  | rewrite (bool_decide_eq_false_2 (_ = _)) by done ];
            cbn [andb orb negb]).
    done.
Qed.

(** C4 (amended): finalization is one-way.  A successful finalizeCourse
    (which only the course's own teacher obtains) sets isFinalized and
    clears isActive, whatever isActive was; and once a course is
    finalized, in every state any later log of transactions leads to it
    stays finalized and inactive, and every finalizeCourse and
    toggleCourseStatus on it reverts: with "Course already finalized"
    and "Cannot modify finalized course" when its teacher calls; with
    "Only teacher" when the caller is not in the teacher set; and with
    "Only course teacher can finalize" and "Only course teacher can
    modify" when the caller is another teacher. *)
Theorem finalization_is_one_way s id :
  reachable s →
  (∀ env s1, exec (finalizeCourse env id) s = Ok s1 →
     msg_sender env = teacher (course_at s id)
     ∧ isFinalized (course_at s1 id) = true
     ∧ isActive (course_at s1 id) = false)
  ∧ (isFinalized (course_at s id) = true →
     ∀ txs, let s2 := replay txs s in
       isFinalized (course_at s2 id) = true
       ∧ isActive (course_at s2 id) = false
       ∧ ∀ env,
           is_ok (exec (finalizeCourse env id) s2) = false
           ∧ is_ok (exec (toggleCourseStatus env id) s2) = false
           ∧ (msg_sender env = teacher (course_at s id) →
                exec (finalizeCourse env id) s2
                  = Revert (Error "Course already finalized")
                ∧ exec (toggleCourseStatus env id) s2
                  = Revert (Error "Cannot modify finalized course"))
           ∧ (msg_sender env ∉ isTeacher s2 →
                exec (finalizeCourse env id) s2 = Revert (Error "Only teacher")
                ∧ exec (toggleCourseStatus env id) s2
                  = Revert (Error "Only teacher"))
           ∧ (msg_sender env ∈ isTeacher s2 →
              msg_sender env ≠ teacher (course_at s id) →
                exec (finalizeCourse env id) s2
                  = Revert (Error "Only course teacher can finalize")
                ∧ exec (toggleCourseStatus env id) s2
                  = Revert (Error "Only course teacher can modify"))).
Proof.
  intros Hs. split; [intros env s1; apply finalize_effect|].
  intros Hf txs. cbv zeta.
  pose proof (inv_reachable _ Hs) as Hinv.
  assert (Hl : courses s !! id = Some (course_at s id)).
  { unfold course_at in *. destruct (courses s !! id); [done|discriminate]. }
  destruct (inv_courses _ Hinv _ _ Hl) as (_ & _ & _ & _ & _ & Hact).
  destruct (replay_courses txs s id _ Hinv Hl) as (c2 & Hl2 & Hsame & Hkeep).
  destruct (Hkeep Hf) as [Hf2 Ha2].
  pose proof (course_at_Some _ _ _ Hl2) as E2.
  assert (Hinv2 : Inv (replay txs s))
    by (apply inv_reachable, reachable_replay, Hs).
  rewrite E2. split; [done|]. split; [by rewrite Ha2, Hact|].
  intros env. rewrite <- E2 in Hf2.
  destruct (finalized_rejects env id _ Hinv2 Hf2) as (R1 & R2 & R3).
  destruct (others_rejected env id _ Hinv2 Hf2) as (R4 & R5).
  assert (Ht : teacher (course_at (replay txs s) id) = teacher (course_at s id)).
  { rewrite E2. destruct Hsame as (_ & _ & -> & _). done. }
  split; [done|]. split; [done|]. split; [|split].
  - intros Hcaller. apply R3. by rewrite Ht.
  - exact R4.
  - intros Hyes Hne. apply R5; [done|]. by rewrite Ht.
Qed.

Lemma finalization_is_one_way_witness :
  (∃ s1, exec (finalizeCourse (mkEnv 2 1010 999 0) 1) classroom = Ok s1
         ∧ isFinalized (course_at s1 1) = true
         ∧ isActive (course_at s1 1) = false)
  ∧ exec (finalizeCourse (mkEnv 2 1020 999 0) 1)
      (replay [tx 3 1061 (CheckIn 1 present valid);
               tx 2 1070 (ToggleCourseStatus 1)] closed_early)
    = Revert (Error "Course already finalized")
  ∧ exec (toggleCourseStatus (mkEnv 3 1030 999 0) 1) closed_with_colleague
    = Revert (Error "Only teacher")
  ∧ exec (finalizeCourse (mkEnv 5 1030 999 0) 1) closed_with_colleague
    = Revert (Error "Only course teacher can finalize").
Proof.
  assert (Hf : isFinalized (course_at closed_early 1) = true)
    by (vm_compute; reflexivity).
  split; [|split; [|split]].
  - destruct (exec (finalizeCourse (mkEnv 2 1010 999 0) 1) classroom)
      as [s1|] eqn:E; [|vm_compute in E; discriminate E].
    exists s1. split; [reflexivity|].
    destruct (finalization_is_one_way classroom 1 reachable_classroom)
      as [Hfin _].
    destruct (Hfin _ _ E) as (_ & ? & ?). done.
  - destruct (finalization_is_one_way closed_early 1 reachable_closed_early)
      as [_ Hlater].
    destruct (Hlater Hf [tx 3 1061 (CheckIn 1 present valid);
                         tx 2 1070 (ToggleCourseStatus 1)])
      as (_ & _ & Hrej).
    destruct (Hrej (mkEnv 2 1020 999 0)) as (_ & _ & Hmsg & _).
    apply Hmsg. vm_compute. reflexivity.
  - destruct (finalization_is_one_way closed_early 1 reachable_closed_early)
      as [_ Hlater].
    destruct (Hlater Hf [tx 1 1020 (RegisterTeacher 5)]) as (_ & _ & Hrej).
    destruct (Hrej (mkEnv 3 1030 999 0)) as (_ & _ & _ & Hout & _).
    apply Hout. intros Hin. apply (bool_decide_pack _) in Hin.
    vm_compute in Hin. exact Hin.
  - destruct (finalization_is_one_way closed_early 1 reachable_closed_early)
      as [_ Hlater].
    destruct (Hlater Hf [tx 1 1020 (RegisterTeacher 5)]) as (_ & _ & Hrej).
    destruct (Hrej (mkEnv 5 1030 999 0)) as (_ & _ & _ & _ & Hcol).
    apply Hcol.
    + apply (bool_decide_unpack _). vm_compute. exact I.
    + vm_compute. discriminate.
Defined.

(** C4, as stated, fails for callers other than the course's teacher:
    on the finalized course a student is turned away with "Only teacher"
    and another teacher with "Only course teacher can finalize" or
    "Only course teacher can modify", not with the finalization
    messages. *)
Lemma finalization_is_one_way_counterexample :
  reachable closed_with_colleague
  ∧ isFinalized (course_at closed_with_colleague 1) = true
  ∧ exec (finalizeCourse (mkEnv 3 1030 999 0) 1) closed_with_colleague
    = Revert (Error "Only teacher")
  ∧ exec (toggleCourseStatus (mkEnv 3 1030 999 0) 1) closed_with_colleague
    = Revert (Error "Only teacher")
  ∧ exec (finalizeCourse (mkEnv 5 1030 999 0) 1) closed_with_colleague
    = Revert (Error "Only course teacher can finalize")
  ∧ exec (toggleCourseStatus (mkEnv 5 1030 999 0) 1) closed_with_colleague
    = Revert (Error "Only course teacher can modify").
Proof.
  split; [apply reachable_replay, reachable_closed_early|].
  repeat split; vm_compute; reflexivity.
Qed.

(** ** Read surface *)

Ltac pass_guards :=
  repeat (first [ rewrite bool_decide_eq_true_2 by done
                | rewrite bool_decide_eq_false_2 by done ];
          cbn [andb orb negb]).

(** C5: on an existing course, getStudentAttendance reverts with "Not
    authorized" unless the caller is the student, the course's teacher or
    the admin, getCourseAttendance unless the caller is the course's
    teacher or the admin, and getStudentScore unless the caller is the
    student or the admin; an authorized caller gets the stored handle. *)
Theorem read_authorization s env id student :
  course_exists s id →
  let caller := msg_sender env in
  let owner := teacher (course_at s id) in
  (caller ≠ student → caller ≠ owner → caller ≠ admin s →
     view (getStudentAttendance env id student) s = Revert (Error "Not authorized"))
  ∧ (caller = student ∨ caller = owner ∨ caller = admin s →
     view (getStudentAttendance env id student) s
     = Ok (encryptedAttendance s !! (id, student)))
  ∧ (caller ≠ owner → caller ≠ admin s →
     view (getCourseAttendance env id) s = Revert (Error "Not authorized"))
  ∧ (caller = owner ∨ caller = admin s →
     view (getCourseAttendance env id) s = Ok (encryptedTotalAttendance s !! id))
  ∧ (caller ≠ student → caller ≠ admin s →
     view (getStudentScore env student) s = Revert (Error "Not authorized"))
  ∧ (caller = student ∨ caller = admin s →
     view (getStudentScore env student) s = Ok (encryptedStudentScore s !! student)).
Proof.
  intros (Hpos & Hlt & Hid). cbv zeta. destruct s. munfold.
  pass_guards.
  repeat split.
  - intros. by pass_guards.
  - intros [?|[?|?]]; repeat case_bool_decide; try done.
  - intros. by pass_guards.
  - intros [?|?]; repeat case_bool_decide; try done.
  - intros. by pass_guards.
  - intros [?|?]; repeat case_bool_decide; try done.
Qed.

Lemma course_exists_classroom : course_exists classroom 1.
Proof. repeat split; vm_compute; reflexivity. Qed.

Lemma read_authorization_witness :
  view (getStudentAttendance (mkEnv 5 1061 999 0) 1 3) classroom
    = Revert (Error "Not authorized")
  ∧ view (getCourseAttendance (mkEnv 3 1061 999 0) 1) classroom
    = Revert (Error "Not authorized")
  ∧ view (getStudentScore (mkEnv 2 1061 999 0) 3) classroom
    = Revert (Error "Not authorized")
  ∧ is_ok (view (getStudentAttendance (mkEnv 2 1061 999 0) 1 3) classroom) = true.
Proof.
  pose proof (read_authorization classroom (mkEnv 5 1061 999 0) 1 3
                course_exists_classroom) as (H1 & _).
  pose proof (read_authorization classroom (mkEnv 3 1061 999 0) 1 3
                course_exists_classroom) as (_ & _ & H2 & _).
  pose proof (read_authorization classroom (mkEnv 2 1061 999 0) 1 3
                course_exists_classroom) as (_ & H4 & _ & _ & H3 & _).
  split; [apply H1; vm_compute; discriminate|].
  split; [apply H2; vm_compute; discriminate|].
  split; [apply H3; vm_compute; discriminate|].
  rewrite H4; [reflexivity|]. right. left. vm_compute. reflexivity.
Defined.

(** C10: on an existing course, hasStudentCheckedIn answers true for
    every student address, whether or not that student ever checked in. *)
Theorem hasStudentCheckedIn_always_true s id student :
  course_exists s id →
  view (hasStudentCheckedIn id student) s = Ok true.
Proof.
  intros (Hpos & Hlt & Hid). destruct s. munfold. by pass_guards.
Qed.

Lemma hasStudentCheckedIn_always_true_witness :
  encryptedAttendance classroom !! (1, 4) = None
  ∧ view (hasStudentCheckedIn 1 4) classroom = Ok true.
Proof.
  split; [vm_compute; reflexivity|].
  apply hasStudentCheckedIn_always_true, course_exists_classroom.
Defined.

(** ** Deactivation *)

(** [checkIn] commutes with a change of the isActive flag. *)
Lemma checkIn_set_isActive env id x p s b :
  exec (checkIn env id x p) (set_isActive id b s)
  = match exec (checkIn env id x p) s with
    | Ok s' => Ok (set_isActive id b s')
    | Revert why => Revert why
    end.
Proof.
  unfold set_isActive. destruct s. munfold.
  destruct (courses0 !! id) as [c|] eqn:Hl;
    repeat (first [ rewrite lookup_alter_eq
                  | rewrite Hl
                  | match goal with
                    | |- context [if ?c then _ else _] => destruct c
                    end ];
            cbn [fmap option_fmap option_map from_option Datatypes.id with_active
                 zeroCourse courseId startTime endTime isFinalized teacher
                 andb negb]);
    reflexivity.
Qed.

(** C9 (amended): checkIn does not look at isActive.  A registered
    student submitting, with a proof the runtime accepts, to an existing,
    unfinalized course inside [startTime, endTime] succeeds and is
    recorded: the cell holds the submitted status, the total and the
    score move by the status, and StudentCheckedIn is logged.  The same
    call on the ledger with the course's isActive set to either value
    succeeds with the same record, so a deactivated course takes the
    check-in exactly as an active one does, while getCourseDebugInfo
    reports canCheckIn = isActive there: false for a deactivated
    course. *)
Theorem checkIn_ignores_isActive s env id x p :
  msg_sender env ∈ isStudent s →
  course_exists s id →
  isFinalized (course_at s id) = false →
  startTime (course_at s id) <= block_timestamp env →
  block_timestamp env <= endTime (course_at s id) →
  proof_ok p = true →
  (∃ s', exec (checkIn env id x p) s = Ok s'
         ∧ (∀ b, exec (checkIn env id x p) (set_isActive id b s)
                 = Ok (set_isActive id b s'))
         ∧ FHE.plain (encryptedAttendance s' !! (id, msg_sender env))
           = ext_plain x mod 2 ^ 8
         ∧ is_Some (encryptedAttendance s' !! (id, msg_sender env))
         ∧ FHE.plain (encryptedTotalAttendance s' !! id)
           = (FHE.plain (encryptedTotalAttendance s !! id)
              + if bool_decide (ext_plain x mod 2 ^ 8 = 1) then 1 else 0)
             mod 2 ^ 32
         ∧ FHE.plain (encryptedStudentScore s' !! msg_sender env)
           = (FHE.plain (encryptedStudentScore s !! msg_sender env)
              + if bool_decide (ext_plain x mod 2 ^ 8 = 1) then 10 else 0)
             mod 2 ^ 32
         ∧ events s'
           = (events s ++ [StudentCheckedIn id (msg_sender env)])%list)
  ∧ ∃ d, view (getCourseDebugInfo env id) s = Ok d
         ∧ dbg_canCheckIn d = isActive (course_at s id).
Proof.
  intros Hst Hex Hf H1 H2 Hp.
  split.
  - pose proof (checkIn_succeeds _ _ x p _ Hst Hex H1 H2 Hf Hp) as Hok.
    destruct (exec (checkIn env id x p) s) as [s'|] eqn:E; [|discriminate Hok].
    exists s'. split; [reflexivity|].
    destruct (checkIn_effect _ _ _ _ _ _ E) as ((c & Hc & Hpl & _) & Ht & Hs).
    split; [|split; [by rewrite Hc|split; [by rewrite Hc|split;
      [exact Ht|split; [exact Hs|]]]]].
    + intros b. by rewrite checkIn_set_isActive, E.
    + clear Hc Hpl Ht Hs Hok. destruct s. minv E. reflexivity.
  - destruct Hex as (Hpos & Hlt & Hid). destruct s. munfold. pass_guards.
    eexists. split; [reflexivity|]. cbn [dbg_canCheckIn].
    cbn [isFinalized isActive] in *. pass_guards. by rewrite Hf.
Qed.

Lemma checkIn_ignores_isActive_witness :
  isActive (course_at switched_off 1) = false
  ∧ (∃ s', exec (checkIn (mkEnv 3 1061 999 0) 1 present valid) switched_off
           = Ok s'
           ∧ FHE.plain (encryptedAttendance s' !! (1, 3)) = 1
           ∧ FHE.plain (encryptedTotalAttendance s' !! 1) = 1
           ∧ FHE.plain (encryptedStudentScore s' !! 3) = 10)
  ∧ ∃ d, view (getCourseDebugInfo (mkEnv 3 1061 999 0) 1) switched_off = Ok d
         ∧ dbg_canCheckIn d = false.
Proof.
  split; [vm_compute; reflexivity|].
  destruct (checkIn_ignores_isActive switched_off (mkEnv 3 1061 999 0) 1
              present valid)
    as ((s' & Hs' & _ & Hcell & _ & Htot & Hsc & _) & d & Hd & Hcan).
  - apply (bool_decide_unpack _). vm_compute. exact I.
  - repeat split; vm_compute; reflexivity.
  - vm_compute. reflexivity.
  - vm_compute. discriminate.
  - vm_compute. discriminate.
  - reflexivity.
  - split.
    + exists s'. split; [exact Hs'|]. split; [exact Hcell|].
      split; (etrans; [first [exact Htot|exact Hsc]|vm_compute; reflexivity]).
    + exists d. split; [exact Hd|].
      rewrite Hcan. vm_compute. reflexivity.
Defined.

(** C9, as stated, fails when the runtime rejects the submitted proof:
    a registered student, on the existing, unfinalized course and inside
    its window, is turned away by FHE.fromExternal, whatever isActive
    is. *)
Lemma checkIn_ignores_isActive_counterexample :
  reachable switched_off
  ∧ 3 ∈ isStudent switched_off
  ∧ course_exists switched_off 1
  ∧ isFinalized (course_at switched_off 1) = false
  ∧ startTime (course_at switched_off 1) <= 1061
  ∧ 1061 <= endTime (course_at switched_off 1)
  ∧ exec (checkIn (mkEnv 3 1061 999 0) 1 present (InputProof false))
      switched_off
    = Revert InvalidInputProof.
Proof.
  split; [apply reachable_replay, reachable_classroom|].
  split; [apply (bool_decide_unpack _); vm_compute; exact I|].
  split; [repeat split; vm_compute; reflexivity|].
  split; [vm_compute; reflexivity|].
  split; [vm_compute; discriminate|].
  split; [vm_compute; discriminate|].
  vm_compute. reflexivity.
Qed.

(** ** Course creation *)

Lemma createCourse_effect env nm start stop s s' :
  exec (createCourse env nm start stop) s = Ok s' →
  start < stop
  ∧ courses s' !! nextCourseId s
    = Some (mkCourse (nextCourseId s) nm (msg_sender env) start stop true false).
Proof.
  intros H. destruct s; minv H. cbn [courses nextCourseId].
  split; [done|]. apply lookup_insert_eq.
Qed.

(** C6 (amended): every stored course has endTime > startTime, from its
    creation on, and no transaction changes a stored course's name,
    teacher, startTime or endTime.  Called by a teacher, createCourse
    reverts with "Start time must not be too far in the past" whenever
    startTime is 300 seconds or more before the block time, and with
    "End time must be after start" whenever endTime <= startTime and the
    start-time check, which comes first, has passed (block time at least
    300 and startTime later than block time - 300). *)
Theorem course_times s :
  reachable s →
  (∀ id c, courses s !! id = Some c → startTime c < endTime c)
  ∧ (∀ env nm start stop s',
       exec (createCourse env nm start stop) s = Ok s' →
       start < stop
       ∧ courses s' !! nextCourseId s
         = Some (mkCourse (nextCourseId s) nm (msg_sender env) start stop true false))
  ∧ (∀ env call s' id c,
       step env call s = Ok s' → courses s !! id = Some c →
       ∃ c', courses s' !! id = Some c'
             ∧ name c' = name c ∧ teacher c' = teacher c
             ∧ startTime c' = startTime c ∧ endTime c' = endTime c)
  ∧ (∀ env nm start stop,
       msg_sender env ∈ isTeacher s →
       (start + 300 <= block_timestamp env →
          exec (createCourse env nm start stop) s
          = Revert (Error "Start time must not be too far in the past"))
       ∧ (300 <= block_timestamp env → block_timestamp env < start + 300 →
          stop <= start →
          exec (createCourse env nm start stop) s
          = Revert (Error "End time must be after start"))).
Proof.
  intros Hs. pose proof (inv_reachable _ Hs) as Hinv.
  split; [|split; [|split]].
  - intros id c Hl. by destruct (inv_courses _ Hinv _ _ Hl) as (_&_&_&?&_).
  - intros env nm start stop s'. apply createCourse_effect.
  - intros env call s' id c Hstep Hl.
    destruct (step_courses _ _ _ _ _ _ Hinv Hstep Hl)
      as (c' & Hl' & (_ & ? & ? & ? & ?) & _).
    by exists c'.
  - intros env nm start stop Ht. destruct s. munfold. split.
    + intros Hold.
      rewrite (bool_decide_eq_true_2 (_ ∈ _)) by done.
      rewrite (bool_decide_eq_true_2 (300 <= _)) by lia.
      by rewrite (bool_decide_eq_false_2 (_ < start)) by lia.
    + intros Hnow Hfresh Hbad.
      rewrite (bool_decide_eq_true_2 (_ ∈ _)) by done.
      rewrite (bool_decide_eq_true_2 (300 <= _)) by lia.
      rewrite (bool_decide_eq_true_2 (_ < start)) by lia.
      by rewrite (bool_decide_eq_false_2 (start < stop)) by lia.
Qed.

Lemma course_times_witness :
  startTime (course_at classroom 1) < endTime (course_at classroom 1)
  ∧ exec (createCourse (mkEnv 2 1000 999 0) "late" 700 5000) classroom
    = Revert (Error "Start time must not be too far in the past")
  ∧ exec (createCourse (mkEnv 2 1000 999 0) "empty" 1000 1000) classroom
    = Revert (Error "End time must be after start").
Proof.
  destruct (course_times classroom reachable_classroom) as (Hlt & _ & _ & Hrev).
  split.
  - apply (Hlt 1). vm_compute. reflexivity.
  - assert (Ht : msg_sender (mkEnv 2 1000 999 0) ∈ isTeacher classroom)
      by (apply (bool_decide_unpack _); vm_compute; exact I).
    split.
    + apply (Hrev _ "late" 700 5000 Ht). vm_compute. discriminate.
    + apply (Hrev _ "empty" 1000 1000 Ht); vm_compute;
        first [discriminate | reflexivity].
Defined.

(** C6, as stated, fails where its two revert conditions overlap or the
    checks before them fire: with endTime <= startTime a teacher is
    turned away with the start-time message when startTime is stale,
    and with an arithmetic panic when the block time is below 300; a
    caller who is no teacher gets "Only teacher". *)
Lemma course_times_counterexample :
  reachable classroom
  ∧ 2 ∈ isTeacher classroom
  ∧ exec (createCourse (mkEnv 2 1000 999 0) "x" 0 0) classroom
    = Revert (Error "Start time must not be too far in the past")
  ∧ exec (createCourse (mkEnv 2 100 999 0) "x" 5 5) classroom
    = Revert (Panic 17)
  ∧ exec (createCourse (mkEnv 3 1000 999 0) "x" 1000 1000) classroom
    = Revert (Error "Only teacher").
Proof.
  split; [exact reachable_classroom|].
  split; [apply (bool_decide_unpack _); vm_compute; exact I|].
  repeat split; vm_compute; reflexivity.
Qed.

(** ** Registration *)

(** C7 (amended): selfRegister reverts with "Teachers cannot
    self-register as students" for every caller in the teacher set, and
    with "Already registered as student" for every caller in the student
    set who is not also a teacher (the teacher check comes first); a
    successful selfRegister makes the caller a student and sets the
    caller's score to a zero ciphertext that the contract and the caller
    may decrypt; registerStudent only adds to the student set and leaves
    every encrypted score as it was. *)
Theorem registration_paths s env :
  (msg_sender env ∈ isTeacher s →
     exec (selfRegister env) s
     = Revert (Error "Teachers cannot self-register as students"))
  ∧ (msg_sender env ∉ isTeacher s → msg_sender env ∈ isStudent s →
     exec (selfRegister env) s = Revert (Error "Already registered as student"))
  ∧ (∀ s', exec (selfRegister env) s = Ok s' →
       msg_sender env ∈ isStudent s'
       ∧ ∃ c, encryptedStudentScore s' !! msg_sender env = Some c
              ∧ ct_plain c = 0
              ∧ this env ∈ ct_acl c ∧ msg_sender env ∈ ct_acl c)
  ∧ (∀ who s', exec (registerStudent env who) s = Ok s' →
       s' = set_isStudent ({[who]} ∪ isStudent s) s
       ∧ encryptedStudentScore s' = encryptedStudentScore s).
Proof.
  split; [|split; [|split]].
  - intros Ht. destruct s. munfold. by pass_guards.
  - intros Hnt Hst. destruct s. munfold. by pass_guards.
  - intros s' H. destruct s; minv H.
    cbn [isStudent encryptedStudentScore].
    split; [apply elem_of_union; left; by apply elem_of_singleton|].
    eexists. split; [reflexivity|]. simpl.
    rewrite !elem_of_union, !elem_of_singleton. tauto.
  - intros who s' H. destruct s; minv H. done.
Qed.

Lemma registration_paths_witness :
  exec (selfRegister (mkEnv 2 1000 999 0)) classroom
    = Revert (Error "Teachers cannot self-register as students")
  ∧ exec (selfRegister (mkEnv 3 1000 999 0)) classroom
    = Revert (Error "Already registered as student")
  ∧ FHE.plain (encryptedStudentScore classroom !! 3) = 0
  ∧ encryptedStudentScore classroom !! 4 = None.
Proof.
  destruct (registration_paths classroom (mkEnv 2 1000 999 0)) as (H1 & _).
  destruct (registration_paths classroom (mkEnv 3 1000 999 0)) as (_ & H2 & _).
  split; [apply H1; apply (bool_decide_unpack _); vm_compute; exact I|].
  split.
  - apply H2.
    + apply (bool_decide_unpack _). vm_compute. exact I.
    + apply (bool_decide_unpack _). vm_compute. exact I.
  - split; vm_compute; reflexivity.
Defined.

(** C7, as stated, fails for a caller in both sets: the admin made
    address 5 a teacher and a student, and its selfRegister is turned
    away with the teacher message, not with "Already registered as
    student". *)
Lemma registration_paths_counterexample :
  reachable double_role
  ∧ 5 ∈ isStudent double_role
  ∧ 5 ∈ isTeacher double_role
  ∧ exec (selfRegister (mkEnv 5 1000 999 0)) double_role
    = Revert (Error "Teachers cannot self-register as students").
Proof.
  split; [apply reachable_replay, reachable_deploy|].
  split; [apply (bool_decide_unpack _); vm_compute; exact I|].
  split; [apply (bool_decide_unpack _); vm_compute; exact I|].
  vm_compute. reflexivity.
Qed.

(** ** The admin *)

(** C8: the constructor makes the deployer the admin; after that no
    log of transactions changes the admin, and a call of
    updateAdmin(address), which the contract does not define, reverts. *)
Theorem admin_is_never_transferred deployer txs env :
  admin (constructor deployer) = deployer
  ∧ admin (replay txs (constructor deployer)) = deployer
  ∧ step env (Other "updateAdmin(address)") (replay txs (constructor deployer))
    = Revert NoSuchFunction.
Proof.
  split; [reflexivity|]. split; [apply replay_admin|reflexivity].
Qed.

(** * Further properties of the ledger *)

(** ** Who can change what *)

(** X1: roles only come from the documented doors.  A transaction that
    makes [a] a teacher is the admin's registerTeacher(a); one that makes
    [a] a student is the admin's registerStudent(a) or [a]'s own
    selfRegister, and then [a] was no teacher. *)
Theorem roles_provenance env c s s' a :
  step env c s = Ok s' →
  (a ∈ isTeacher s' → a ∉ isTeacher s →
     msg_sender env = admin s ∧ c = RegisterTeacher a)
  ∧ (a ∈ isStudent s' → a ∉ isStudent s →
     (msg_sender env = admin s ∧ c = RegisterStudent a)
     ∨ (msg_sender env = a ∧ c = SelfRegister ∧ a ∉ isTeacher s)).
Proof.
  intros H. destruct s, c; minv H; cbn [isTeacher isStudent admin] in *;
    (split; [intros Hin Hout|intros Hin Hout]); try done.
  - apply elem_of_union in Hin as [Hin|Hin]; [|done].
    apply elem_of_singleton in Hin as ->. done.
  - apply elem_of_union in Hin as [Hin|Hin]; [|done].
    apply elem_of_singleton in Hin as ->. by left.
  - apply elem_of_union in Hin as [Hin|Hin]; [|done].
    apply elem_of_singleton in Hin as ->. by right.
Qed.

Lemma roles_provenance_witness :
  (msg_sender (mkEnv 1 1000 999 0) = admin (constructor 1)
   ∧ RegisterTeacher 2 = RegisterTeacher 2)
  ∧ ∃ s', step (mkEnv 1 1000 999 0) (RegisterTeacher 2) (constructor 1) = Ok s'
          ∧ 2 ∈ isTeacher s'.
Proof.
  destruct (step (mkEnv 1 1000 999 0) (RegisterTeacher 2) (constructor 1))
    as [s'|] eqn:E; [|vm_compute in E; discriminate E].
  assert (Hin : 2 ∈ isTeacher s').
  { vm_compute in E. apply Ok_inj in E. subst s'.
    apply (bool_decide_unpack _). vm_compute. exact I. }
  split; [|exists s'; by split].
  apply (roles_provenance _ _ _ _ 2 E); [exact Hin|].
  apply (bool_decide_unpack _). vm_compute. exact I.
Defined.

Lemma step_roles env c s s' :
  step env c s = Ok s' →
  isTeacher s ⊆ isTeacher s' ∧ isStudent s ⊆ isStudent s'.
Proof.
  intros H. destruct s, c; minv H; cbn [isTeacher isStudent];
    split; try done; apply union_subseteq_r.
Qed.

Lemma roles_never_revoked_aux txs s :
  isTeacher s ⊆ isTeacher (replay txs s)
  ∧ isStudent s ⊆ isStudent (replay txs s).
Proof.
  revert s. induction txs as [|[env c] txs IH]; intros s; simpl; [done|].
  destruct (step env c s) as [s'|] eqn:Hstep; [|apply IH].
  destruct (step_roles _ _ _ _ Hstep) as [Ht Hs], (IH s') as [Ht' Hs'].
  split; etrans; eauto.
Qed.

(** X2: roles are never revoked.  Whatever transactions follow, every
    teacher stays a teacher and every student stays a student: no
    entry point removes an address from either set. *)
Theorem roles_never_revoked txs s a :
  (a ∈ isTeacher s → a ∈ isTeacher (replay txs s))
  ∧ (a ∈ isStudent s → a ∈ isStudent (replay txs s)).
Proof.
  destruct (roles_never_revoked_aux txs s) as [Ht Hs].
  split; intros Hin; [by apply Ht|by apply Hs].
Qed.

(** X3: the encrypted cells only move through their own doors.  A
    student's score changes only by that student's selfRegister or
    checkIn or by a teacher's generateRandomBonus for that student; a
    course total only by a checkIn on that course or by the createCourse
    that allocates it; an attendance cell only by that student's checkIn
    on that course. *)
Theorem encrypted_state_provenance env c s s' :
  step env c s = Ok s' →
  (∀ a, encryptedStudentScore s' !! a ≠ encryptedStudentScore s !! a →
     (c = SelfRegister ∧ msg_sender env = a)
     ∨ (∃ id x p, c = CheckIn id x p ∧ msg_sender env = a)
     ∨ (c = GenerateRandomBonus a ∧ msg_sender env ∈ isTeacher s))
  ∧ (∀ id, encryptedTotalAttendance s' !! id ≠ encryptedTotalAttendance s !! id →
     (∃ x p, c = CheckIn id x p)
     ∨ (∃ nm start stop, c = CreateCourse nm start stop ∧ id = nextCourseId s))
  ∧ (∀ id a, encryptedAttendance s' !! (id, a) ≠ encryptedAttendance s !! (id, a) →
     ∃ x p, c = CheckIn id x p ∧ msg_sender env = a).
Proof.
  intros H. destruct s, c; minv H;
    cbn [encryptedStudentScore encryptedTotalAttendance encryptedAttendance
         isTeacher nextCourseId];
    (split; [intros a Hne|split; [intros id' Hne|intros id' a Hne]]);
    try done.
  - left. split; [done|]. apply dec_stable. intros Hn.
    by rewrite lookup_sstore_ne in Hne.
  - right. eexists _, _, _. split; [done|]. apply dec_stable. intros Hn.
    by rewrite lookup_sstore_ne in Hne.
  - right. left. eexists _, _, _. split; [done|]. apply dec_stable. intros Hn.
    by rewrite lookup_sstore_ne in Hne.
  - left. eexists _, _. f_equal. apply dec_stable. intros Hn.
    by rewrite lookup_sstore_ne in Hne.
  - eexists _, _.
    destruct (decide ((id, msg_sender env) = (id', a))) as [[= <- <-]|Hn]; [done|].
    by rewrite lookup_sstore_ne in Hne.
  - right. right. split; [|done]. f_equal. apply dec_stable. intros Hn.
    by rewrite lookup_sstore_ne in Hne.
Qed.

Lemma encrypted_state_provenance_witness :
  ∃ s', step (mkEnv 3 1061 999 0) (CheckIn 1 present valid) classroom = Ok s'
        ∧ ((CheckIn 1 present valid = SelfRegister
            ∧ msg_sender (mkEnv 3 1061 999 0) = 3)
           ∨ (∃ id x p, CheckIn 1 present valid = CheckIn id x p
                        ∧ msg_sender (mkEnv 3 1061 999 0) = 3)
           ∨ (CheckIn 1 present valid = GenerateRandomBonus 3
              ∧ msg_sender (mkEnv 3 1061 999 0) ∈ isTeacher classroom)).
Proof.
  destruct (step (mkEnv 3 1061 999 0) (CheckIn 1 present valid) classroom)
    as [s'|] eqn:E; [|vm_compute in E; discriminate E].
  exists s'. split; [reflexivity|].
  destruct (encrypted_state_provenance _ _ _ _ E) as (Hscore & _ & _).
  apply Hscore.
  vm_compute in E. apply Ok_inj in E. subst s'. vm_compute. discriminate.
Defined.

(** ** Course identifiers *)

Lemma step_ids env c s s' :
  (∀ id, 0 < id → id < nextCourseId s → is_Some (courses s !! id)) →
  step env c s = Ok s' →
  ∀ id, 0 < id → id < nextCourseId s' → is_Some (courses s' !! id).
Proof.
  intros Hd H. destruct s, c; minv H; cbn [courses nextCourseId] in *; try done.
  - intros id Hpos Hlt. rewrite lookup_insert. case_decide; [by eexists|].
    apply Hd; [done|lia].
  - rewrite lookup_insert_eq, insert_insert_eq.
    intros id' Hpos Hlt. rewrite lookup_insert. case_decide; [by eexists|].
    by apply Hd.
  - intros id' Hpos Hlt. rewrite lookup_insert. case_decide; [by eexists|].
    by apply Hd.
Qed.

Lemma reachable_ids s :
  reachable s → ∀ id, 0 < id → id < nextCourseId s → is_Some (courses s !! id).
Proof.
  induction 1 as [d|s env c s' _ IH Hstep].
  - simpl. intros id ? ?. lia.
  - by eapply step_ids.
Qed.

(** X4: course identifiers are dense.  In every reachable state the
    stored courses are exactly the ids 1 .. nextCourseId - 1, each stored
    under its own id, so the courseExists modifier passes exactly for
    those ids and its second check ("Course not initialized") never
    fires. *)
Theorem course_ids_are_dense s id :
  reachable s →
  (is_Some (courses s !! id) ↔ 0 < id ∧ id < nextCourseId s)
  ∧ (course_exists s id ↔ 0 < id ∧ id < nextCourseId s)
  ∧ exec (courseExists id) s ≠ Revert (Error "Course not initialized").
Proof.
  intros Hs. pose proof (inv_reachable _ Hs) as Hinv.
  assert (Hiff : is_Some (courses s !! id) ↔ 0 < id ∧ id < nextCourseId s).
  { split.
    - intros [c Hc]. by destruct (inv_courses _ Hinv _ _ Hc) as (_&?&?&_).
    - intros [? ?]. by apply reachable_ids. }
  assert (Hex : course_exists s id ↔ 0 < id ∧ id < nextCourseId s).
  { split; [intros (?&?&?); done|]. intros [Hpos Hlt].
    destruct (proj2 Hiff (conj Hpos Hlt)) as [c Hc].
    destruct (inv_courses _ Hinv _ _ Hc) as (Hid&_).
    repeat split; try done. by rewrite (course_at_Some _ _ _ Hc). }
  split; [done|]. split; [done|].
  destruct (decide (0 < id ∧ id < nextCourseId s)) as [Hin|Hout].
  - destruct (proj2 Hex Hin) as (Hpos & Hlt & Hid).
    destruct s. munfold. pass_guards. discriminate.
  - destruct s. munfold. cbn [nextCourseId] in *.
    destruct (bool_decide (0 < id)) eqn:E1; cbn [andb]; [|discriminate].
    destruct (bool_decide (id < nextCourseId0)) eqn:E2; cbn [andb]; [|discriminate].
    apply bool_decide_eq_true in E1, E2. tauto.
Qed.

Lemma course_ids_are_dense_witness :
  course_exists classroom 1
  ∧ ¬ course_exists classroom 2
  ∧ ¬ course_exists classroom 0.
Proof.
  destruct (course_ids_are_dense classroom 1 reachable_classroom) as (_ & H1 & _).
  destruct (course_ids_are_dense classroom 2 reachable_classroom) as (_ & H2 & _).
  destruct (course_ids_are_dense classroom 0 reachable_classroom) as (_ & H0 & _).
  split; [apply H1; vm_compute; done|].
  split; [intros Hx; apply H2 in Hx; vm_compute in Hx; destruct Hx; discriminate|].
  intros Hx; apply H0 in Hx; vm_compute in Hx; destruct Hx; discriminate.
Defined.

(** ** Creating a course *)

(** X5: createCourse succeeds exactly when the caller is a teacher, the
    block time is at least 300 (the subtraction is checked), startTime is
    later than block time - 300, endTime is later than startTime and the
    id counter has not reached the top of uint256. *)
Theorem createCourse_succeeds_iff env nm start stop s :
  is_ok (createCourse env nm start stop s) = true
  ↔ msg_sender env ∈ isTeacher s
    ∧ 300 <= block_timestamp env
    ∧ block_timestamp env - 300 < start
    ∧ start < stop
    ∧ nextCourseId s < uint256_max.
Proof.
  destruct s. munfold. split.
  - intros H.
    repeat match type of H with
    | context [if ?c then _ else _] => destruct c eqn:?; try discriminate H
    end.
    guards. done.
  - intros (H1 & H2 & H3 & H4 & H5). by pass_guards.
Qed.

Lemma createCourse_post env nm start stop s id s' :
  createCourse env nm start stop s = Ok (id, s') →
  id = nextCourseId s
  ∧ nextCourseId s' = id + 1
  ∧ events s' = (events s ++ [CourseCreated id nm (msg_sender env)])%list
  ∧ courses s' = <[id := mkCourse id nm (msg_sender env) start stop true false]>
                   (courses s)
  ∧ encryptedTotalAttendance s' !! id
    = Some (Ciphertext 0 ({[msg_sender env]} ∪ ({[this env]} ∪ ∅))).
Proof.
  intros H. destruct s, s'. munfold.
  repeat match type of H with
  | context [if ?c then _ else _] => destruct c eqn:?; try discriminate H
  end.
  apply Ok_inj in H. injection H as <- <- <- <- <- <- <- <- <- <-.
  rewrite ?lookup_sstore_eq, ?sstore_sstore, lookup_insert_eq.
  done.
Qed.

Lemma getCourseInfo_existing s id :
  course_exists s id →
  view (getCourseInfo id) s
  = Ok (name (course_at s id), teacher (course_at s id),
        startTime (course_at s id), endTime (course_at s id),
        isFinalized (course_at s id)).
Proof.
  intros (Hpos & Hlt & Hid). destruct s. munfold. by pass_guards.
Qed.

(** X6: creating a course and reading it back.  A successful
    createCourse returns the previous value of nextCourseId, advances the
    counter by one, logs CourseCreated with that id, the name and the
    caller as its last event, and getCourseInfo on the returned id then
    yields the submitted name, the caller as teacher, the submitted
    times, and isFinalized = false; the course is active and its total
    starts as a zero ciphertext. *)
Theorem createCourse_then_getCourseInfo env nm start stop s id s' :
  reachable s →
  createCourse env nm start stop s = Ok (id, s') →
  id = nextCourseId s
  ∧ nextCourseId s' = id + 1
  ∧ events s' = (events s ++ [CourseCreated id nm (msg_sender env)])%list
  ∧ view (getCourseInfo id) s' = Ok (nm, msg_sender env, start, stop, false)
  ∧ isActive (course_at s' id) = true
  ∧ FHE.plain (encryptedTotalAttendance s' !! id) = 0
  ∧ is_Some (encryptedTotalAttendance s' !! id).
Proof.
  intros Hs H. pose proof (inv_next _ (inv_reachable _ Hs)) as Hn.
  destruct (createCourse_post _ _ _ _ _ _ _ H) as (Hid & Hnext & Hev & Hc & Ht).
  assert (Hat : course_at s' id
                = mkCourse id nm (msg_sender env) start stop true false).
  { unfold course_at. by rewrite Hc, lookup_insert_eq. }
  split; [done|]. split; [done|]. split; [done|]. split.
  - rewrite getCourseInfo_existing; [by rewrite Hat|].
    unfold course_exists. rewrite Hat, Hnext. simpl. lia.
  - rewrite Hat, Ht. simpl. split; [done|]. split; [done|]. by eexists.
Qed.

Lemma createCourse_then_getCourseInfo_witness :
  ∃ s', createCourse (mkEnv 2 1000 999 0) "physics" 2000 3000 classroom
        = Ok (2, s')
        ∧ view (getCourseInfo 2) s' = Ok ("physics", 2, 2000, 3000, false).
Proof.
  destruct (createCourse (mkEnv 2 1000 999 0) "physics" 2000 3000 classroom)
    as [[id s']|] eqn:E; [|vm_compute in E; discriminate E].
  destruct (createCourse_then_getCourseInfo _ _ _ _ _ _ _ reachable_classroom E)
    as (Hid & _ & _ & Hinfo & _).
  assert (id = 2) as -> by (rewrite Hid; vm_compute; reflexivity).
  exists s'. split; [reflexivity|exact Hinfo].
Defined.

(** ** Switching a course on and off *)

Lemma with_active_same c : with_active (isActive c) c = c.
Proof. by destruct c. Qed.



(** ** Bonus and comparison *)

(** X8: generateRandomBonus succeeds exactly for callers in the teacher
    set, whether or not the target is a registered student.  It replaces
    the target's score by (old score + bonus) mod 2^32 with a bonus of at
    most 255, authorises only the contract and the target to decrypt the
    new score, and leaves every other score, the course totals and the
    attendance cells as they were. *)
Theorem generateRandomBonus_effect env student s :
  (is_ok (exec (generateRandomBonus env student) s) = true
   ↔ msg_sender env ∈ isTeacher s)
  ∧ ∀ s', exec (generateRandomBonus env student) s = Ok s' →
      let bonus := fhe_random env mod 2 ^ 8 in
      bonus <= 255
      ∧ (∃ c, encryptedStudentScore s' !! student = Some c
              ∧ ct_plain c
                = (FHE.plain (encryptedStudentScore s !! student) + bonus)
                  mod 2 ^ 32
              ∧ ∀ w, w ∈ ct_acl c ↔ w = student ∨ w = this env)
      ∧ (∀ a, a ≠ student →
           encryptedStudentScore s' !! a = encryptedStudentScore s !! a)
      ∧ encryptedTotalAttendance s' = encryptedTotalAttendance s
      ∧ encryptedAttendance s' = encryptedAttendance s
      ∧ isStudent s' = isStudent s.
Proof.
  split.
  - destruct s. munfold. case_bool_decide; simpl; split; done.
  - intros s' H. cbv zeta.
    assert (Hb : fhe_random env mod 2 ^ 8 <= 255).
    { pose proof (mod8_lt (fhe_random env)). change (2 ^ 8) with 256 in *. lia. }
    destruct s. minv H.
    cbn [encryptedStudentScore encryptedTotalAttendance encryptedAttendance
         isStudent].
    split; [done|]. split.
    + eexists. split; [reflexivity|]. simpl.
      split.
      * f_equal. f_equal. apply N.mod_small.
        change (2 ^ 32) with 4294967296. lia.
      * intros w. rewrite !elem_of_union, !elem_of_singleton.
        rewrite elem_of_empty. tauto.
    + split; [|done]. intros a Hne. by rewrite lookup_sstore_ne.
Qed.

Lemma generateRandomBonus_effect_witness :
  (5 ∉ isStudent classroom)
  ∧ ∃ s', exec (generateRandomBonus (mkEnv 2 1000 999 300) 5) classroom = Ok s'
          ∧ FHE.plain (encryptedStudentScore s' !! 5) = 44.
Proof.
  split; [intros Hin; apply (bool_decide_pack _) in Hin; vm_compute in Hin;
          exact Hin|].
  destruct (exec (generateRandomBonus (mkEnv 2 1000 999 300) 5) classroom)
    as [s'|] eqn:E; [|vm_compute in E; discriminate E].
  exists s'. split; [reflexivity|].
  destruct (generateRandomBonus_effect (mkEnv 2 1000 999 300) 5 classroom)
    as (_ & Heff).
  destruct (Heff s' E) as (_ & (c & Hc & Hv & _) & _).
  rewrite Hc. simpl. rewrite Hv. vm_compute. reflexivity.
Defined.

(** X9: compareStudentScores is for the admin only (any other caller gets
    "Only admin can compare"), changes no storage, and returns an
    encrypted boolean that is 1 exactly when the first score is strictly
    greater than the second (a score never initialised counts as 0); the
    admin and the contract may decrypt it.  Hence a student never beats
    themself, and two students never beat each other. *)
Theorem compareStudentScores_effect env a b s :
  let score x := FHE.plain (encryptedStudentScore s !! x) in
  (msg_sender env ≠ admin s →
     compareStudentScores env a b s = Revert (Error "Only admin can compare"))
  ∧ (msg_sender env = admin s →
     ∃ r, compareStudentScores env a b s = Ok (Some r, s)
          ∧ ct_plain r = (if bool_decide (score b < score a) then 1 else 0)
          ∧ admin s ∈ ct_acl r ∧ this env ∈ ct_acl r)
  ∧ (∀ r1 r2 s1 s2,
       compareStudentScores env a b s = Ok (r1, s1) →
       compareStudentScores env b a s = Ok (r2, s2) →
       ¬ (FHE.plain r1 = 1 ∧ FHE.plain r2 = 1))
  ∧ (∀ r s1, compareStudentScores env a a s = Ok (r, s1) → FHE.plain r = 0).
Proof.
  cbv zeta. destruct s. munfold. split; [|split; [|split]].
  - intros Hne. by pass_guards.
  - intros Heq. pass_guards. eexists. split; [reflexivity|]. simpl.
    split; [done|]. rewrite !elem_of_union, !elem_of_singleton. tauto.
  - intros r1 r2 s1 s2. case_bool_decide; [|discriminate].
    intros [= <- <-] [= <- <-]. simpl.
    repeat case_bool_decide; intros [? ?]; try discriminate. lia.
  - intros r s1. case_bool_decide; [|discriminate].
    intros [= <- <-]. simpl. rewrite bool_decide_eq_false_2 by lia. done.
Qed.

Lemma compareStudentScores_effect_witness :
  compareStudentScores (mkEnv 2 1000 999 0) 3 4 classroom
    = Revert (Error "Only admin can compare")
  ∧ ∃ r, compareStudentScores (mkEnv 1 1000 999 0) 3 4 classroom
         = Ok (Some r, classroom)
         ∧ ct_plain r = 0.
Proof.
  destruct (compareStudentScores_effect (mkEnv 2 1000 999 0) 3 4 classroom)
    as (Hno & _).
  destruct (compareStudentScores_effect (mkEnv 1 1000 999 0) 3 4 classroom)
    as (_ & Hyes & _).
  split; [apply Hno; vm_compute; discriminate|].
  destruct Hyes as (r & Hr & Hv & _); [vm_compute; reflexivity|].
  exists r. split; [exact Hr|]. rewrite Hv. vm_compute. reflexivity.
Defined.

(** ** More on check-in *)

Lemma checkIn_ok_iff env id x p s :
  is_ok (exec (checkIn env id x p) s) = true
  ↔ msg_sender env ∈ isStudent s
    ∧ course_exists s id
    ∧ startTime (course_at s id) <= block_timestamp env
    ∧ block_timestamp env <= endTime (course_at s id)
    ∧ isFinalized (course_at s id) = false
    ∧ proof_ok p = true.
Proof.
  split.
  - intros H. destruct (exec (checkIn env id x p) s) as [s'|] eqn:E;
      [clear H|discriminate H].
    destruct s. munfold.
    repeat match type of E with
    | context [if ?c then _ else _] => destruct c eqn:?; try discriminate E
    end.
    guards. done.
  - intros (H1 & H2 & H3 & H4 & H5 & H6). by apply checkIn_succeeds.
Qed.

(** X10: checkIn succeeds exactly when the caller is a registered
    student, the course exists, the block time lies in [startTime,
    endTime], the course is not finalized and the runtime accepts the
    submitted proof; nothing else (isActive, an earlier submission, the
    submitted value) matters. *)
Theorem checkIn_succeeds_iff env id x p s :
  is_ok (exec (checkIn env id x p) s) = true
  ↔ msg_sender env ∈ isStudent s
    ∧ course_exists s id
    ∧ startTime (course_at s id) <= block_timestamp env
    ∧ block_timestamp env <= endTime (course_at s id)
    ∧ isFinalized (course_at s id) = false
    ∧ proof_ok p = true.
Proof. apply checkIn_ok_iff. Qed.

(** X11: the frame of checkIn.  A successful check-in appends one
    StudentCheckedIn event for the course and the caller and changes
    nothing but that student's cell for that course, that course's total
    and that student's score: roles, admin, courses, the id counter,
    every other cell, total and score stay as they were. *)
Theorem checkIn_frame env id x p s s' :
  exec (checkIn env id x p) s = Ok s' →
  events s' = (events s ++ [StudentCheckedIn id (msg_sender env)])%list
  ∧ nextCourseId s' = nextCourseId s ∧ admin s' = admin s
  ∧ courses s' = courses s
  ∧ isTeacher s' = isTeacher s ∧ isStudent s' = isStudent s
  ∧ (∀ k, k ≠ (id, msg_sender env) →
       encryptedAttendance s' !! k = encryptedAttendance s !! k)
  ∧ (∀ id', id' ≠ id →
       encryptedTotalAttendance s' !! id' = encryptedTotalAttendance s !! id')
  ∧ (∀ a, a ≠ msg_sender env →
       encryptedStudentScore s' !! a = encryptedStudentScore s !! a).
Proof.
  intros H. destruct s. minv H.
  cbn [events nextCourseId admin courses isTeacher isStudent
       encryptedAttendance encryptedTotalAttendance encryptedStudentScore].
  repeat split; try done; intros ? ?; by rewrite lookup_sstore_ne.
Qed.

Lemma checkIn_frame_witness :
  ∃ s', exec (checkIn (mkEnv 3 1061 999 0) 1 present valid) classroom = Ok s'
        ∧ encryptedStudentScore s' !! 4 = encryptedStudentScore classroom !! 4
        ∧ courses s' = courses classroom.
Proof.
  destruct (exec (checkIn (mkEnv 3 1061 999 0) 1 present valid) classroom)
    as [s'|] eqn:E; [|vm_compute in E; discriminate E].
  exists s'. split; [reflexivity|].
  destruct (checkIn_frame _ _ _ _ _ _ E) as (_ & _ & _ & Hc & _ & _ & _ & _ & Hs).
  split; [apply Hs; vm_compute; discriminate|exact Hc].
Defined.

(** X12: the grants of a check-in.  After a successful check-in the
    contract, the student who checked in and the course's teacher each
    hold a grant on the new course total and on the stored cell (so every
    check-in hands the running total of the course to the submitting
    student), and the contract and the student each hold a grant on the
    student's new score. *)
Theorem checkIn_grants env id x p s s' :
  exec (checkIn env id x p) s = Ok s' →
  let who := msg_sender env in
  let owner := teacher (course_at s id) in
  (∃ c, encryptedTotalAttendance s' !! id = Some c
        ∧ this env ∈ ct_acl c ∧ who ∈ ct_acl c ∧ owner ∈ ct_acl c)
  ∧ (∃ c, encryptedAttendance s' !! (id, who) = Some c
          ∧ this env ∈ ct_acl c ∧ who ∈ ct_acl c ∧ owner ∈ ct_acl c)
  ∧ (∃ c, encryptedStudentScore s' !! who = Some c
          ∧ this env ∈ ct_acl c ∧ who ∈ ct_acl c).
Proof.
  intros H. cbv zeta. destruct s. minv H.
  cbn [encryptedAttendance encryptedTotalAttendance encryptedStudentScore].
  repeat split; eexists; (split; [reflexivity|]); simpl;
    rewrite !elem_of_union, !elem_of_singleton; tauto.
Qed.

Lemma checkIn_grants_witness :
  ∃ s' c, exec (checkIn (mkEnv 3 1061 999 0) 1 present valid) classroom = Ok s'
          ∧ encryptedTotalAttendance s' !! 1 = Some c
          ∧ 3 ∈ ct_acl c ∧ 2 ∈ ct_acl c.
Proof.
  destruct (exec (checkIn (mkEnv 3 1061 999 0) 1 present valid) classroom)
    as [s'|] eqn:E; [|vm_compute in E; discriminate E].
  destruct (checkIn_grants _ _ _ _ _ _ E) as ((c & Hc & _ & Hwho & Hown) & _).
  exists s', c. split; [reflexivity|]. split; [exact Hc|].
  split; [exact Hwho|exact Hown].
Defined.

(** ** Where the encrypted cells live *)

Lemma step_anchored env c s s' :
  Inv s → anchored s → step env c s = Ok s' → anchored s'.
Proof.
  intros [Hn Hc _ _ _] (Hcell & Htot) H.
  destruct s, c; minv H; unfold anchored;
    cbn [encryptedAttendance encryptedTotalAttendance courses isStudent
         nextCourseId] in *.
  - (* registerTeacher *) done.
  - (* registerStudent *)
    split; [|done]. intros id a Hs. destruct (Hcell _ _ Hs). split; [done|].
    apply elem_of_union. by right.
  - (* selfRegister *)
    split; [|done]. intros id a Hs. destruct (Hcell _ _ Hs). split; [done|].
    apply elem_of_union. by right.
  - (* createCourse *)
    split.
    + intros id a Hs. destruct (Hcell _ _ Hs) as [[c0 Hst] ?].
      destruct (Hc _ _ Hst) as (_ & _ & Hlt & _).
      rewrite lookup_insert_ne by lia. split; [by eexists|done].
    + intros id. rewrite lookup_sstore, lookup_insert.
      case_decide; [|apply Htot]. split; intros _; by eexists.
  - (* checkIn *)
    match goal with Hex : courseId _ = id |- _ =>
      assert (Hstored : is_Some (courses0 !! id))
        by (destruct (courses0 !! id); [by eexists|simpl in Hex; lia]) end.
    split.
    + intros id' a. rewrite lookup_sstore. case_decide as Hk; [|apply Hcell].
      injection Hk as <- <-. done.
    + intros id'. rewrite lookup_sstore. case_decide as Hk; [|apply Htot].
      subst id'. split; [done|]. intros _. by eexists.
  - (* generateRandomBonus *) done.
  - (* finalizeCourse *)
    rewrite lookup_insert_eq, insert_insert_eq. simpl.
    assert (Hsame : ∀ id', is_Some (<[id:=with_active false
                       (with_finalized (default zeroCourse (courses0 !! id)))]>
                       courses0 !! id') ↔ is_Some (courses0 !! id')).
    { intros id'. rewrite lookup_insert. case_decide as Hid; [|done]. subst id'.
      split; [intros _|by eexists].
      destruct (courses0 !! id); [by eexists|]. simpl in *. lia. }
    split.
    + intros id' a Hs. destruct (Hcell _ _ Hs). split; [by apply Hsame|done].
    + intros id'. by rewrite Hsame.
  - (* toggleCourseStatus *)
    assert (Hsame : ∀ id', is_Some (<[id:=with_active
                       (negb (isActive (default zeroCourse (courses0 !! id))))
                       (default zeroCourse (courses0 !! id))]>
                       courses0 !! id') ↔ is_Some (courses0 !! id')).
    { intros id'. rewrite lookup_insert. case_decide as Hid; [|done]. subst id'.
      split; [intros _|by eexists].
      destruct (courses0 !! id); [by eexists|]. simpl in *. lia. }
    split.
    + intros id' a Hs. destruct (Hcell _ _ Hs). split; [by apply Hsame|done].
    + intros id'. by rewrite Hsame.
  - (* compareStudentScores *) done.
Qed.

Lemma reachable_anchored s : reachable s → anchored s.
Proof.
  induction 1 as [d|s env c s' Hs IH Hstep].
  - split; simpl.
    + intros id a [c Hc]. by rewrite lookup_empty in Hc.
    + intros id. rewrite !lookup_empty. done.
  - eapply step_anchored; [by apply inv_reachable|done|done].
Qed.

(** X13: where the encrypted cells live.  In every reachable state an
    attendance cell holds a ciphertext only for an existing course and a
    registered student, and a course has an encrypted total exactly when
    it exists: no call writes a cell or a total for an id that was never
    assigned, and createCourse never leaves a course without its total. *)
Theorem cells_belong_to_courses s :
  reachable s →
  (∀ id a, is_Some (encryptedAttendance s !! (id, a)) →
     course_exists s id ∧ a ∈ isStudent s)
  ∧ (∀ id, is_Some (encryptedTotalAttendance s !! id) ↔ course_exists s id).
Proof.
  intros Hs. pose proof (inv_reachable _ Hs) as Hinv.
  destruct (reachable_anchored _ Hs) as (Hcell & Htot).
  assert (Hex : ∀ id, is_Some (courses s !! id) ↔ course_exists s id).
  { intros id. split.
    - intros [c Hc]. destruct (inv_courses _ Hinv _ _ Hc) as (Hid & ? & ? & _).
      repeat split; try done. by rewrite (course_at_Some _ _ _ Hc).
    - intros Hex. rewrite (course_exists_lookup _ _ Hex). by eexists. }
  split.
  - intros id a Hc. destruct (Hcell _ _ Hc). split; [by apply Hex|done].
  - intros id. by rewrite Htot, Hex.
Qed.

Lemma cells_belong_to_courses_witness :
  is_Some (encryptedTotalAttendance classroom !! 1)
  ∧ ¬ is_Some (encryptedTotalAttendance classroom !! 2)
  ∧ ¬ is_Some (encryptedAttendance
                 (replay [tx 3 1061 (CheckIn 2 present valid)] classroom)
               !! (2, 3)).
Proof.
  destruct (cells_belong_to_courses classroom reachable_classroom)
    as (_ & Htot).
  destruct (cells_belong_to_courses _
              (reachable_replay [tx 3 1061 (CheckIn 2 present valid)] _
                 reachable_classroom)) as (Hcell & _).
  split; [|split].
  - apply Htot. repeat split; vm_compute; reflexivity.
  - intros Hs. apply Htot in Hs as (_ & Hlt & _). vm_compute in Hlt.
    discriminate Hlt.
  - intros Hs. apply Hcell in Hs as ((_ & Hlt & _) & _). vm_compute in Hlt.
    discriminate Hlt.
Defined.

(** ** Finalization closes the books *)

Lemma step_frozen env c s s' id :
  Inv s → isFinalized (course_at s id) = true →
  step env c s = Ok s' →
  encryptedTotalAttendance s' !! id = encryptedTotalAttendance s !! id
  ∧ ∀ a, encryptedAttendance s' !! (id, a) = encryptedAttendance s !! (id, a).
Proof.
  intros [Hn Hc _ _ _] Hf H.
  assert (Hl : courses s !! id = Some (course_at s id)).
  { unfold course_at in *. destruct (courses s !! id); [done|discriminate]. }
  destruct (Hc _ _ Hl) as (_ & _ & Hlt & _).
  destruct s, c; minv H;
    cbn [encryptedTotalAttendance encryptedAttendance nextCourseId] in *;
    try done.
  - split; [|done]. rewrite lookup_sstore_ne; [done|lia].
  - assert (id0 ≠ id) by congruence.
    split; [by rewrite lookup_sstore_ne|].
    intros a. rewrite lookup_sstore_ne; [done|congruence].
Qed.

(** X14: finalization closes the books.  Once a course is finalized, in
    every state any later log of transactions leads to, its encrypted
    total and every attendance cell of it are what they were at that
    moment, and every checkIn on it reverts. *)
Theorem finalized_course_is_frozen s id txs :
  reachable s →
  isFinalized (course_at s id) = true →
  encryptedTotalAttendance (replay txs s) !! id = encryptedTotalAttendance s !! id
  ∧ (∀ a, encryptedAttendance (replay txs s) !! (id, a)
          = encryptedAttendance s !! (id, a))
  ∧ ∀ env x p, is_ok (exec (checkIn env id x p) (replay txs s)) = false.
Proof.
  intros Hs Hf.
  assert (Hfrozen : ∀ txs s, Inv s → isFinalized (course_at s id) = true →
    isFinalized (course_at (replay txs s) id) = true
    ∧ encryptedTotalAttendance (replay txs s) !! id
      = encryptedTotalAttendance s !! id
    ∧ (∀ a, encryptedAttendance (replay txs s) !! (id, a)
            = encryptedAttendance s !! (id, a))).
  { clear. intros txs. induction txs as [|[env c] txs IH]; intros s Hinv Hf;
      simpl; [done|].
    destruct (step env c s) as [s'|] eqn:Hstep; [|by apply IH].
    assert (Hl : courses s !! id = Some (course_at s id)).
    { unfold course_at in *. destruct (courses s !! id); [done|discriminate]. }
    destruct (step_courses _ _ _ _ _ _ Hinv Hstep Hl) as (c1 & Hl1 & _ & Hk).
    destruct (Hk Hf) as [Hf1 _].
    rewrite <- (course_at_Some _ _ _ Hl1) in Hf1.
    destruct (step_frozen _ _ _ _ _ Hinv Hf Hstep) as [Ht Hc].
    destruct (IH s' (inv_step _ _ _ _ Hinv Hstep) Hf1) as (? & Ht' & Hc').
    split; [done|]. split; [congruence|]. intros a. by rewrite Hc', Hc. }
  destruct (Hfrozen txs s (inv_reachable _ Hs) Hf) as (Hf' & Ht & Hc).
  split; [done|]. split; [done|].
  intros env x p. apply not_true_is_false. intros Hok.
  apply checkIn_ok_iff in Hok as (_ & _ & _ & _ & Hnf & _). congruence.
Qed.

Lemma finalized_course_is_frozen_witness :
  encryptedTotalAttendance
    (replay [ tx 3 1061 (CheckIn 1 present valid);
              tx 2 1062 (ToggleCourseStatus 1) ] closed_early) !! 1
  = encryptedTotalAttendance closed_early !! 1.
Proof.
  apply (finalized_course_is_frozen closed_early 1 _ reachable_closed_early).
  vm_compute. reflexivity.
Defined.

(** ** The event log *)

Lemma step_events env c s s' :
  step env c s = Ok s' →
  events s' = events s
  ∨ (∃ nm start stop, c = CreateCourse nm start stop
       ∧ events s' = (events s ++ [CourseCreated (nextCourseId s) nm (msg_sender env)])%list
       ∧ nextCourseId s' = nextCourseId s + 1
       ∧ encryptedAttendance s' = encryptedAttendance s)
  ∨ (∃ id x p, c = CheckIn id x p
       ∧ events s' = (events s ++ [StudentCheckedIn id (msg_sender env)])%list
       ∧ nextCourseId s' = nextCourseId s
       ∧ is_Some (encryptedAttendance s' !! (id, msg_sender env))
       ∧ ∀ k, k ≠ (id, msg_sender env) →
           encryptedAttendance s' !! k = encryptedAttendance s !! k)
  ∨ (∃ e, events s' = (events s ++ [e])%list
       ∧ created_ids [e] = []
       ∧ (∀ id a, e ≠ StudentCheckedIn id a)
       ∧ nextCourseId s' = nextCourseId s
       ∧ encryptedAttendance s' = encryptedAttendance s).
Proof.
  intros H. destruct s, c; minv H;
    cbn [events nextCourseId encryptedAttendance]; auto.
  - right. left. by eexists _, _, _.
  - right. right. left. eexists _, _, _. repeat split; try done.
    + rewrite lookup_sstore_eq. by eexists.
    + intros k Hk. by rewrite lookup_sstore_ne.
  - right. right. right. eexists. by repeat split.
  - right. right. right. eexists. by repeat split.
Qed.

Lemma step_events_same env c s s' :
  step env c s = Ok s' → events s' = events s →
  nextCourseId s' = nextCourseId s
  ∧ encryptedAttendance s' = encryptedAttendance s.
Proof.
  intros H. destruct s, c; minv H;
    cbn [events nextCourseId encryptedAttendance]; try done;
    intros Hev; apply (f_equal length) in Hev;
    rewrite length_app in Hev; simpl in Hev; lia.
Qed.

Lemma cell_iff_event s id a :
  reachable s →
  is_Some (encryptedAttendance s !! (id, a))
  ↔ StudentCheckedIn id a ∈ events s.
Proof.
  induction 1 as [d|s env c s' _ IH Hstep].
  - simpl. rewrite lookup_empty. split; [intros [? ?]; done|].
    intros Hin. by apply elem_of_nil in Hin.
  - destruct (step_events _ _ _ _ Hstep)
      as [Hev|[(nm & start & stop & -> & Hev & _ & Hatt)
              |[(id' & x & p & -> & Hev & _ & Hnew & Hold)
               |(e & Hev & _ & Hne & _ & Hatt)]]].
    + destruct (step_events_same _ _ _ _ Hstep Hev) as [_ Hatt].
      by rewrite Hev, Hatt.
    + rewrite Hev, Hatt, IH, elem_of_app, list_elem_of_singleton.
      split; [by left|]. intros [?|?]; done.
    + rewrite Hev, elem_of_app, list_elem_of_singleton.
      destruct (decide ((id, a) = (id', msg_sender env))) as [[= -> ->]|Hk].
      * split; [by right|done].
      * rewrite (Hold _ Hk), IH. split; [by left|].
        intros [?|[= -> ->]]; done.
    + rewrite Hev, Hatt, IH, elem_of_app, list_elem_of_singleton.
      split; [by left|]. intros [?|Heq]; [done|]. by destruct (Hne id a).
Qed.

(** X15: the attendance cells mirror the log.  In every reachable state
    the cell of student [a] for course [id] holds a ciphertext exactly
    when the log contains StudentCheckedIn(id, a): the public getter of
    the cell tells whether that student ever checked in, which
    hasStudentCheckedIn (always true) does not. *)
Theorem cells_mirror_events s id a :
  reachable s →
  is_Some (encryptedAttendance s !! (id, a))
  ↔ StudentCheckedIn id a ∈ events s.
Proof. apply cell_iff_event. Qed.

Lemma cells_mirror_events_witness :
  (StudentCheckedIn 1 3
     ∈ events (replay [tx 3 1061 (CheckIn 1 present valid)] classroom))
  ∧ ¬ is_Some (encryptedAttendance classroom !! (1, 3)).
Proof.
  split.
  - apply (cells_mirror_events _ 1 3
             (reachable_replay _ _ reachable_classroom)).
    vm_compute. by eexists.
  - intros Hs.
    apply (cells_mirror_events classroom 1 3 reachable_classroom) in Hs.
    vm_compute in Hs. by repeat (apply elem_of_cons in Hs as [Hs|Hs];
      [discriminate Hs|]); apply elem_of_nil in Hs.
Defined.

Lemma created_ids_app evs evs' :
  created_ids (evs ++ evs') = (created_ids evs ++ created_ids evs')%list.
Proof. apply omap_app. Qed.

(** X16: the log numbers the courses.  In every reachable state the
    CourseCreated events carry, in order, exactly the ids 1, 2, ...,
    nextCourseId - 1: the id read from the creation event is the id the
    course is stored under, and no id is skipped or reused. *)
Theorem events_number_courses s :
  reachable s →
  created_ids (events s)
  = N.of_nat <$> seq 1 (N.to_nat (nextCourseId s) - 1).
Proof.
  induction 1 as [d|s env c s' Hs IH Hstep].
  - reflexivity.
  - pose proof (inv_next _ (inv_reachable _ Hs)) as Hn.
    destruct (step_events _ _ _ _ Hstep)
      as [Hev|[(nm & start & stop & -> & Hev & Hnext & _)
              |[(id' & x & p & -> & Hev & Hnext & _)
               |(e & Hev & He & _ & Hnext & _)]]].
    + destruct (step_events_same _ _ _ _ Hstep Hev) as [Hnext _].
      by rewrite Hev, Hnext.
    + rewrite Hev, Hnext, created_ids_app, IH. simpl.
      replace (N.to_nat (nextCourseId s + 1) - 1)%nat
        with (S (N.to_nat (nextCourseId s) - 1)) by lia.
      rewrite seq_S, fmap_app. simpl. do 2 f_equal. lia.
    + rewrite Hev, Hnext, created_ids_app, IH. simpl. by rewrite app_nil_r.
    + rewrite Hev, Hnext, created_ids_app, IH, He. by rewrite app_nil_r.
Qed.

Lemma events_number_courses_witness :
  created_ids
    (events (replay [tx 2 1000 (CreateCourse "physics" 2000 3000);
                     tx 3 1061 (CheckIn 1 present valid);
                     tx 2 1070 (CreateCourse "art" 2000 3000)] classroom))
  = [1; 2; 3].
Proof.
  rewrite (events_number_courses _ (reachable_replay _ _ reachable_classroom)).
  vm_compute. reflexivity.
Defined.

(** ** Unknown courses *)

(** X17: an id that was never assigned is rejected everywhere.  In a
    reachable state, for id = 0 or id >= nextCourseId, the five reads
    guarded by courseExists revert with "Course does not exist" for every
    caller, and so do checkIn for a registered student and
    finalizeCourse and toggleCourseStatus for a teacher. *)
Theorem unknown_course_is_rejected s env id :
  reachable s →
  ¬ (0 < id ∧ id < nextCourseId s) →
  let gone {A} (r : result A) := r = Revert (Error "Course does not exist") in
  gone (view (getCourseInfo id) s)
  ∧ gone (view (getCourseDebugInfo env id) s)
  ∧ (∀ a, gone (view (hasStudentCheckedIn id a) s))
  ∧ (∀ a, gone (view (getStudentAttendance env id a) s))
  ∧ gone (view (getCourseAttendance env id) s)
  ∧ (msg_sender env ∈ isStudent s → ∀ x p, gone (exec (checkIn env id x p) s))
  ∧ (msg_sender env ∈ isTeacher s →
       gone (exec (finalizeCourse env id) s)
       ∧ gone (exec (toggleCourseStatus env id) s)).
Proof.
  intros Hs Hout. cbv zeta.
  assert (Hnone : courses s !! id = None).
  { destruct (courses s !! id) as [c|] eqn:E; [|done].
    destruct (inv_courses _ (inv_reachable _ Hs) _ _ E) as (_&?&?&_). tauto. }
  assert (Hg : bool_decide (0 < id) && bool_decide (id < nextCourseId s) = false).
  { apply andb_false_iff.
    destruct (decide (0 < id)); [right|left];
      apply bool_decide_eq_false_2; tauto. }
  destruct s. munfold. cbn [courses nextCourseId isStudent isTeacher] in *.
  repeat split; intros;
    repeat (first [ rewrite bool_decide_eq_true_2 by done
                  | rewrite Hg | rewrite Hnone ];
            cbn [andb orb negb default]);
    done.
Qed.

Lemma unknown_course_is_rejected_witness :
  view (getCourseInfo 0) classroom = Revert (Error "Course does not exist")
  ∧ exec (checkIn (mkEnv 3 1061 999 0) 2 present valid) classroom
    = Revert (Error "Course does not exist")
  ∧ exec (finalizeCourse (mkEnv 2 1061 999 0) 7) classroom
    = Revert (Error "Course does not exist").
Proof.
  assert (H0 : ¬ (0 < 0 ∧ 0 < nextCourseId classroom))
    by (vm_compute; intros [? _]; discriminate).
  assert (H2 : ¬ (0 < 2 ∧ 2 < nextCourseId classroom))
    by (vm_compute; intros [_ ?]; discriminate).
  assert (H7 : ¬ (0 < 7 ∧ 7 < nextCourseId classroom))
    by (vm_compute; intros [_ ?]; discriminate).
  destruct (unknown_course_is_rejected classroom (mkEnv 3 1061 999 0) 0
              reachable_classroom H0) as (G0 & _).
  destruct (unknown_course_is_rejected classroom (mkEnv 3 1061 999 0) 2
              reachable_classroom H2) as (_ & _ & _ & _ & _ & G2 & _).
  destruct (unknown_course_is_rejected classroom (mkEnv 2 1061 999 0) 7
              reachable_classroom H7) as (_ & _ & _ & _ & _ & _ & G7).
  split; [exact G0|]. split.
  - apply G2. apply (bool_decide_unpack _). vm_compute. exact I.
  - apply G7. apply (bool_decide_unpack _). vm_compute. exact I.
Defined.

(** ** The debug view *)

(** X18: canCheckIn is sound.  Whenever
    getCourseDebugInfo reports canCheckIn = true, a check-in at that
    block time by any registered student with an accepted proof succeeds;
    the report also echoes the block time and the stored course fields. *)
Theorem canCheckIn_is_sound s env id d :
  view (getCourseDebugInfo env id) s = Ok d →
  dbg_currentTime d = block_timestamp env
  ∧ dbg_isActive d = isActive (course_at s id)
  ∧ dbg_isFinalized d = isFinalized (course_at s id)
  ∧ (dbg_canCheckIn d = true →
     ∀ env' x p,
       msg_sender env' ∈ isStudent s →
       block_timestamp env' = block_timestamp env →
       proof_ok p = true →
       is_ok (exec (checkIn env' id x p) s) = true).
Proof.
  intros H.
  assert (Hex : course_exists s id ∧ d = mkDebugInfo
      (name (course_at s id)) (teacher (course_at s id))
      (startTime (course_at s id)) (endTime (course_at s id))
      (isActive (course_at s id)) (isFinalized (course_at s id))
      (block_timestamp env)
      (bool_decide (startTime (course_at s id) <= block_timestamp env)
       && bool_decide (block_timestamp env <= endTime (course_at s id))
       && negb (isFinalized (course_at s id))
       && isActive (course_at s id))).
  { destruct s. munfold.
    repeat match type of H with
    | context [if ?c then _ else _] => destruct c eqn:?; try discriminate H
    end.
    apply Ok_inj in H. subst d. guards. done. }
  destruct Hex as [Hex ->]. simpl.
  split; [done|]. split; [done|]. split; [done|].
  intros Hcan env' x p Hst Htime Hp.
  apply andb_true_iff in Hcan as [Hcan _].
  apply andb_true_iff in Hcan as [Hcan Hnf].
  apply andb_true_iff in Hcan as [H1 H2].
  apply bool_decide_eq_true in H1, H2. apply negb_true_iff in Hnf.
  apply checkIn_succeeds; try done; by rewrite Htime.
Qed.

Lemma canCheckIn_is_sound_witness :
  ∃ d, view (getCourseDebugInfo (mkEnv 5 1061 999 0) 1) classroom = Ok d
       ∧ dbg_canCheckIn d = true
       ∧ is_ok (exec (checkIn (mkEnv 4 1061 999 0) 1 absent valid) classroom)
         = true.
Proof.
  destruct (view (getCourseDebugInfo (mkEnv 5 1061 999 0) 1) classroom)
    as [d|] eqn:E; [|vm_compute in E; discriminate E].
  exists d. split; [reflexivity|].
  assert (Hcan : dbg_canCheckIn d = true).
  { vm_compute in E. apply Ok_inj in E. subst d. reflexivity. }
  split; [exact Hcan|].
  destruct (canCheckIn_is_sound _ _ _ _ E) as (_ & _ & _ & Hsound).
  apply (Hsound Hcan); [|reflexivity|reflexivity].
  apply (bool_decide_unpack _). vm_compute. exact I.
Defined.

(** ** Registration, again *)

(** X19: self-registration is one-shot.  After a successful selfRegister
    the same caller's selfRegister reverts in every state any later log
    of transactions leads to. *)
Theorem selfRegister_once env s s1 txs env' :
  exec (selfRegister env) s = Ok s1 →
  msg_sender env' = msg_sender env →
  is_ok (exec (selfRegister env') (replay txs s1)) = false.
Proof.
  intros H Hsame.
  assert (Hin : msg_sender env ∈ isStudent s1).
  { destruct s. minv H. cbn [isStudent].
    apply elem_of_union. left. by apply elem_of_singleton. }
  destruct (roles_never_revoked_aux txs s1) as [_ Hsub].
  apply Hsub in Hin. rewrite <- Hsame in Hin.
  destruct (replay txs s1). munfold. cbn [isStudent] in *.
  destruct (bool_decide (msg_sender env' ∈ isTeacher0)); cbn [negb]; [done|].
  by pass_guards.
Qed.

Lemma selfRegister_once_witness :
  ∃ s1, exec (selfRegister (mkEnv 5 1000 999 0)) classroom = Ok s1
        ∧ is_ok (exec (selfRegister (mkEnv 5 2000 999 0))
                   (replay [tx 1 1500 (RegisterTeacher 3)] s1)) = false.
Proof.
  destruct (exec (selfRegister (mkEnv 5 1000 999 0)) classroom)
    as [s1|] eqn:E; [|vm_compute in E; discriminate E].
  exists s1. split; [reflexivity|].
  apply (selfRegister_once _ _ _ _ _ E). reflexivity.
Defined.

(** ** Who runs a course *)

(** X20: only its own teacher changes a course.  In a reachable state, a
    transaction that alters the stored record of a course is a
    finalizeCourse or a toggleCourseStatus on that course sent by the
    teacher recorded in it; no other teacher, student or admin can change
    it, and creating other courses never overwrites it. *)
Theorem course_control env c s s' id c0 :
  reachable s →
  step env c s = Ok s' →
  courses s !! id = Some c0 →
  courses s' !! id ≠ Some c0 →
  msg_sender env = teacher c0
  ∧ (c = FinalizeCourse id ∨ c = ToggleCourseStatus id).
Proof.
  intros Hs H Hl Hne. destruct (inv_reachable _ Hs) as [Hn Hc _ _ _].
  destruct (Hc _ _ Hl) as (_ & _ & Hlt & _).
  destruct s, c; minv H; cbn [courses nextCourseId] in *; try done.
  - rewrite lookup_insert_ne in Hne by lia. done.
  - rewrite lookup_insert_eq, insert_insert_eq in Hne.
    destruct (decide (id0 = id)) as [->|Hd].
    + rewrite Hl in *. simpl in *. split; [done|]. by left.
    + by rewrite lookup_insert_ne in Hne.
  - destruct (decide (id0 = id)) as [->|Hd].
    + rewrite Hl in *. simpl in *. split; [done|]. by right.
    + by rewrite lookup_insert_ne in Hne.
Qed.

Lemma course_control_witness :
  ∃ s', step (mkEnv 2 1010 999 0) (ToggleCourseStatus 1) classroom = Ok s'
        ∧ msg_sender (mkEnv 2 1010 999 0) = teacher (course_at classroom 1).
Proof.
  destruct (step (mkEnv 2 1010 999 0) (ToggleCourseStatus 1) classroom)
    as [s'|] eqn:E; [|vm_compute in E; discriminate E].
  exists s'. split; [reflexivity|].
  apply (course_control _ _ _ _ 1 (course_at classroom 1) reachable_classroom E).
  - vm_compute. reflexivity.
  - vm_compute in E. apply Ok_inj in E. subst s'. vm_compute. discriminate.
Defined.

(** ** The hook and the contract *)









